(** * pyzcm.miner.gpu: the GPU miner frontend/backend coordination

    A shallow embedding of [pyzcm/miner/gpu.py]: the backend worker
    [_GpuMinerProcess], the process entry point [run_miner_process]
    and the asyncio frontend [GpuMiner], which talk through two
    [multiprocessing.Manager] queues.

    Python objects are records, [None]-able values are [option]s,
    Python [int]s are [Z].  Mutation, exceptions, logging, sleeping
    and the accounting callbacks are threaded through a small
    state-and-exception monad over a [World]: the object the running
    code calls [self], the manager holding both queues (shared by the
    two processes), and the trace of observable events. *)

From Stdlib Require Import ZArith List String Ascii Bool Lia.
From Stdlib Require Import Strings.Byte.
From Stdlib Require Import DecimalString DecimalPos DecimalZ.
Import ListNotations.
Open Scope Z_scope.

(** ** Data *)

Definition bytes := list byte.

(** A mining job, opaque to this module except for [job_id]. *)
Record Job := mkJob { job_id : string; job_body : bytes }.

(** The exceptions that can travel through this module.  The first six
    derive from [Exception]; the last two derive from [BaseException]
    only. *)
Inductive exn :=
| QueueEmpty                     (* queue.Empty *)
| AssertionError
| AttributeError
| TypeError
| ValueError
| SolverError (msg : string)     (* whatever Exception the solver code raises *)
| KeyboardInterrupt
| SystemExit.

Definition is_Exception (e : exn) : bool :=
  match e with
  | KeyboardInterrupt | SystemExit => false
  | _ => true
  end.

Definition is_QueueEmpty (e : exn) : bool :=
  match e with
  | QueueEmpty => true
  | _ => false
  end.

(** What travels on a queue: the 3-tuple put by the frontend and the
    4-tuple put by the backend. *)
Inductive item :=
| MiningContext (job : option Job) (nonce1 solver_nonce : option bytes)
| SolutionMessage (job : Job) (nonce2 len_and_solution : bytes) (counted : Z).

(** The two queues created by [GpuMiner.__init__] live in the manager
    process; everybody else holds a proxy, modelled as a [qref]. *)
Inductive qref := WorkQ | ResultQ.

Record Manager := mkManager { work_items : list item; result_items : list item }.

Definition q_items (q : qref) (m : Manager) : list item :=
  match q with
  | WorkQ => work_items m
  | ResultQ => result_items m
  end.

Definition q_store (q : qref) (l : list item) (m : Manager) : Manager :=
  match q with
  | WorkQ => mkManager l (result_items m)
  | ResultQ => mkManager (work_items m) l
  end.

(** ** Observable events *)

Inductive level := DEBUG | INFO | ERROR | CRITICAL.

(** The numeric values of the [logging] module. *)
Definition levelno (l : level) : Z :=
  match l with
  | DEBUG => 10
  | INFO => 20
  | ERROR => 40
  | CRITICAL => 50
  end.

(** One constructor per log call of the module, with the values its
    format string receives. *)
Inductive logmsg :=
| MsgInstantiating (verbose : bool)
| MsgInstantiated (verbose : bool)
| MsgReceivedJob (jid : string) (nonce1_hex solver_nonce_hex : bytes)
| MsgNoNonce1Waiting
| MsgNoNewJob
| MsgInstantiatedMinerProcess
| MsgFATAL (e : exn) (with_traceback : bool)
| MsgQueueingNewJob (jid : string)
| MsgStartingBackend
| MsgReceivedSolution.

Inductive event :=
| EvLog (lvl : level) (m : logmsg)
| EvSleep (secs : Z)
| EvPrint (s : string)
| EvSolverInit (gpu_id : Z * Z) (verbose : bool)
| EvDoPow (job : Job) (nonce1 solver_nonce : option bytes)
| EvSpawnWorker (solver_nonce : option bytes) (gpu_id : Z * Z)
                (result_queue work_queue : qref)
| EvCounter (count : Z)
| EvShare (job : Job) (nonce2 len_and_solution : bytes).

Definition is_sleep (e : event) : bool :=
  match e with
  | EvSleep _ => true
  | _ => false
  end.

(** ** The monad *)

Record World (S : Type) := mkWorld { self : S; mgr : Manager; trace : list event }.
Arguments mkWorld {S} _ _ _.
Arguments self {S} _.
Arguments mgr {S} _.
Arguments trace {S} _.

(** [Pending]: the call has not returned, either because a [while]
    loop used up the iterations it was given or because a blocking
    [get] found its queue empty. *)
Inductive outcome (A : Type) :=
| Ok (a : A)
| Raise (e : exn)
| Pending.
Arguments Ok {A} _.
Arguments Raise {A} _.
Arguments Pending {A}.

Definition M (S A : Type) : Type := World S -> outcome A * World S.

Definition ret {S A} (a : A) : M S A := fun w => (Ok a, w).

Definition bind {S A B} (m : M S A) (k : A -> M S B) : M S B :=
  fun w =>
    match m w with
    | (Ok a, w') => k a w'
    | (Raise e, w') => (Raise e, w')
    | (Pending, w') => (Pending, w')
    end.

Declare Scope py_scope.
Delimit Scope py_scope with py.
Notation "x <- m ;; k" := (bind m (fun x => k))
  (at level 100, m at next level, right associativity) : py_scope.
Notation "m ;; k" := (bind m (fun _ => k))
  (at level 100, right associativity) : py_scope.
Open Scope py_scope.

Definition raise {S A} (e : exn) : M S A := fun w => (Raise e, w).

Definition pending {S A} : M S A := fun w => (Pending, w).

Definition get_self {S} : M S S := fun w => (Ok (self w), w).

Definition set_self {S} (s : S) : M S unit :=
  fun w => (Ok tt, mkWorld s (mgr w) (trace w)).

Definition emit {S} (e : event) : M S unit :=
  fun w => (Ok tt, mkWorld (self w) (mgr w) (trace w ++ [e])).

Definition log {S} (lvl : level) (m : logmsg) : M S unit := emit (EvLog lvl m).

(** [try: body / except <catches> as e: handler e]. *)
Definition try_except {S A} (body : M S A) (catches : exn -> bool)
    (handler : exn -> M S A) : M S A :=
  fun w =>
    match body w with
    | (Raise e, w') => if catches e then handler e w' else (Raise e, w')
    | r => r
    end.

(** [Queue.put(it)]: the manager queues are unbounded, so [put] never
    blocks. *)
Definition queue_put {S} (q : qref) (it : item) : M S unit :=
  fun w => (Ok tt, mkWorld (self w) (q_store q (q_items q (mgr w) ++ [it]) (mgr w)) (trace w)).

(** [Queue.get(False)]. *)
Definition queue_get_nowait {S} (q : qref) : M S item :=
  fun w =>
    match q_items q (mgr w) with
    | [] => (Raise QueueEmpty, w)
    | it :: rest => (Ok it, mkWorld (self w) (q_store q rest (mgr w)) (trace w))
    end.

(** [Queue.get()]. *)
Definition queue_get {S} (q : qref) : M S item :=
  fun w =>
    match q_items q (mgr w) with
    | [] => (Pending, w)
    | it :: rest => (Ok it, mkWorld (self w) (q_store q rest (mgr w)) (trace w))
    end.

(** [binascii.hexlify]: two lower-case hex digits per byte; [None] is
    not bytes-like. *)
Definition hex_digit (n : N) : byte :=
  nth (N.to_nat n)
      [x30; x31; x32; x33; x34; x35; x36; x37; x38; x39;
       x61; x62; x63; x64; x65; x66] x30.

Definition hexlify_bytes (b : bytes) : bytes :=
  flat_map (fun c => let n := Byte.to_N c in
                     [hex_digit (N.div n 16); hex_digit (N.modulo n 16)]) b.

Definition hexlify {S} (b : option bytes) : M S bytes :=
  match b with
  | Some b => ret (hexlify_bytes b)
  | None => raise TypeError
  end.

(** What [str.format] writes for an [int]: its decimal digits, after
    a minus sign when it is negative. *)
Definition str_int (z : Z) : string := NilZero.string_of_int (Z.to_int z).

(** ** The backend: class [_GpuMinerProcess] *)

Module GpuMinerProcess.
Section WithSolver.

(** The state of the solver object built by [solver_class]. *)
Variable Solver : Type.

Record t := mk {
  solver_class : Z * Z -> bool -> exn + Solver;
  solution_count : Z;
  gpu_id : Z * Z;
  result_queue : option qref;
  (* attributes kept by GenericMiner *)
  nonce1 : option bytes;
  solver_nonce : option bytes;
  verbose : bool                 (* what is_logger_verbose() answers *)
}.

Definition set_solution_count (c : Z) (s : t) : t :=
  mk (solver_class s) c (gpu_id s) (result_queue s) (nonce1 s) (solver_nonce s) (verbose s).

Definition set_result_queue (q : option qref) (s : t) : t :=
  mk (solver_class s) (solution_count s) (gpu_id s) q (nonce1 s) (solver_nonce s) (verbose s).

Definition set_nonces (n1 sn : option bytes) (s : t) : t :=
  mk (solver_class s) (solution_count s) (gpu_id s) (result_queue s) n1 sn (verbose s).

(** Modelled from the spec: [GenericMiner.__init__] is not in src.  It
    keeps the solver nonce given at construction ("fixed at worker
    construction") and starts with no nonce1 ("Job or Nonce1 still
    absent").  The rest is [_GpuMinerProcess.__init__]. *)
Definition __init__ (solver_nonce : option bytes) (gpu_id : Z * Z)
    (solver_class : Z * Z -> bool -> exn + Solver) (verbose : bool) : t :=
  mk solver_class 0 gpu_id None None solver_nonce verbose.

Definition count_solutions (count : Z) : M t unit :=
  s <- get_self ;;
  set_self (set_solution_count (solution_count s + count) s).

Definition submit_solution (job : Job) (nonce2 len_and_solution : bytes) : M t unit :=
  s <- get_self ;;
  match result_queue s with
  | None => raise AssertionError
  | Some q =>
      queue_put q (SolutionMessage job nonce2 len_and_solution (solution_count s)) ;;
      s <- get_self ;;
      set_self (set_solution_count 0 s)
  end.

(** What one [do_pow] call does to the miner object: the calls it
    makes on [self], whether it then raises, and the solver state it
    leaves behind. *)
Inductive pow_call :=
| CountSolutions (count : Z)
| SubmitSolution (nonce2 len_and_solution : bytes).

Record pow_result := mkPow {
  pow_calls : list pow_call;
  pow_raises : option exn;
  pow_solver : Solver
}.

(** The solver's search, from its state and the current context. *)
Variable solve : Solver -> Job -> option bytes -> option bytes -> pow_result.

Fixpoint do_calls (job : Job) (cs : list pow_call) : M t unit :=
  match cs with
  | [] => ret tt
  | CountSolutions c :: cs => count_solutions c ;; do_calls job cs
  | SubmitSolution n2 sol :: cs => submit_solution job n2 sol ;; do_calls job cs
  end.

(** Modelled from the spec: [GenericMiner.do_pow] is not in src.  It
    executes one bounded unit of proof-of-work against the solver
    using the current context, reports the attempts through
    [count_solutions] (the "counter method required by the parent
    class") and emits every candidate through [submit_solution],
    tagged with the job it was given.  An exception of the solver is
    not caught. *)
Definition do_pow (solver : Solver) (job : Job) : M t Solver :=
  s <- get_self ;;
  emit (EvDoPow job (nonce1 s) (solver_nonce s)) ;;
  let r := solve solver job (nonce1 s) (solver_nonce s) in
  do_calls job (pow_calls r) ;;
  match pow_raises r with
  | Some e => raise e
  | None => ret (pow_solver r)
  end.

(** [self.solver_class(self.gpu_id, verbose=...)]. *)
Definition construct_solver : M t Solver :=
  s <- get_self ;;
  emit (EvSolverInit (gpu_id s) (verbose s)) ;;
  match solver_class s (gpu_id s) (verbose s) with
  | inl e => raise e
  | inr solver => ret solver
  end.

(** Unpacking into [(job, self.nonce1, self.solver_nonce)]. *)
Definition unpack3 (it : item) : M t (option Job * option bytes * option bytes) :=
  match it with
  | MiningContext j n1 sn => ret (j, n1, sn)
  | SolutionMessage _ _ _ _ => raise ValueError
  end.

(** How the [try]/[except queue.Empty] block of the loop leaves:
    through [continue], or on to [do_pow] with the local [job]. *)
Inductive fetched :=
| Continue
| Solve (j : Job).

Definition fetch (work_queue : qref) (job : option Job) : M t fetched :=
  try_except
    (it <- queue_get_nowait work_queue ;;
     ctx <- unpack3 it ;;
     let '(job', n1, sn) := ctx in
     s <- get_self ;;
     set_self (set_nonces n1 sn s) ;;
     (* the arguments of the log line: job.job_id, then both hexlify *)
     match job' with
     | None => raise AttributeError
     | Some j =>
         s <- get_self ;;
         h1 <- hexlify (nonce1 s) ;;
         hs <- hexlify (solver_nonce s) ;;
         log INFO (MsgReceivedJob (job_id j) h1 hs) ;;
         ret (Solve j)
     end)
    is_QueueEmpty
    (fun _ =>
       s <- get_self ;;
       match job, nonce1 s with
       | Some j, Some _ =>
           log DEBUG MsgNoNewJob ;;
           ret (Solve j)
       | _, _ =>
           log DEBUG MsgNoNonce1Waiting ;;
           emit (EvSleep 2) ;;
           emit (EvPrint ".") ;;
           ret Continue
       end).

(** One pass through the body of [while True]: the solver and the
    local [job] it leaves for the next pass. *)
Definition loop_body (work_queue : qref) (solver : Solver) (job : option Job)
    : M t (Solver * option Job) :=
  f <- fetch work_queue job ;;
  match f with
  | Continue => ret (solver, job)
  | Solve j => solver' <- do_pow solver j ;; ret (solver', Some j)
  end.

(** [while True], for [fuel] iterations. *)
Fixpoint loop (fuel : nat) (work_queue : qref) (solver : Solver) (job : option Job)
    : M t unit :=
  match fuel with
  | O => pending
  | S fuel' =>
      st <- loop_body work_queue solver job ;;
      loop fuel' work_queue (fst st) (snd st)
  end.

(** The part of [run] before the loop. *)
Definition run_setup (result_queue : qref) : M t Solver :=
  s <- get_self ;;
  log DEBUG (MsgInstantiating (verbose s)) ;;
  solver <- construct_solver ;;
  s <- get_self ;;
  log DEBUG (MsgInstantiated (verbose s)) ;;
  set_self (set_result_queue (Some result_queue) s) ;;
  ret solver.

Definition run (fuel : nat) (result_queue work_queue : qref) : M t unit :=
  solver <- run_setup result_queue ;;
  loop fuel work_queue solver None.

End WithSolver.

Arguments mk {Solver} _ _ _ _ _ _ _.
Arguments solver_class {Solver} _.
Arguments solution_count {Solver} _.
Arguments gpu_id {Solver} _.
Arguments result_queue {Solver} _.
Arguments nonce1 {Solver} _.
Arguments solver_nonce {Solver} _.
Arguments verbose {Solver} _.
Arguments set_solution_count {Solver} _ _.
Arguments set_result_queue {Solver} _ _.
Arguments set_nonces {Solver} _ _ _.
Arguments __init__ {Solver} _ _ _ _.
Arguments count_solutions {Solver} _.
Arguments submit_solution {Solver} _ _ _.
Arguments mkPow {Solver} _ _ _.
Arguments pow_calls {Solver} _.
Arguments pow_raises {Solver} _.
Arguments pow_solver {Solver} _.
Arguments do_calls {Solver} _ _.
Arguments do_pow {Solver} _ _ _.
Arguments construct_solver {Solver}.
Arguments unpack3 {Solver} _.
Arguments fetch {Solver} _ _.
Arguments loop_body {Solver} _ _ _ _.
Arguments loop {Solver} _ _ _ _ _.
Arguments run_setup {Solver} _.
Arguments run {Solver} _ _ _ _.

(** [__format__]: the format spec is not looked at; [pid] is what
    [os.getpid()] answers in the process that formats. *)
Definition __format__ {Solver : Type} (s : t Solver) (format_spec : string) (pid : Z)
    : string :=
  ("GPU[" ++ str_int (fst (gpu_id s)) ++ ":" ++ str_int (snd (gpu_id s))
          ++ "](pid=" ++ str_int pid ++ ")")%string.

End GpuMinerProcess.

(** ** The process entry point *)

(** [run_miner_process]: the object is built, then everything runs
    under [except Exception].  [verbose] is the ambient logging
    configuration of the process, [m] and [tr] the manager and the
    trace when the process starts. *)
Definition run_miner_process {Solver : Type}
    (solve : Solver -> Job -> option bytes -> option bytes -> GpuMinerProcess.pow_result Solver)
    (fuel : nat) (verbose : bool)
    (solver_nonce : option bytes) (gpu_id : Z * Z)
    (solver_class : Z * Z -> bool -> exn + Solver)
    (result_queue work_queue : qref)
    (m : Manager) (tr : list event)
    : outcome unit * World (GpuMinerProcess.t Solver) :=
  let miner_process := GpuMinerProcess.__init__ solver_nonce gpu_id solver_class verbose in
  try_except
    (log DEBUG MsgInstantiatedMinerProcess ;;
     GpuMinerProcess.run solve fuel result_queue work_queue)
    is_Exception
    (fun e => log ERROR (MsgFATAL e true))
    (mkWorld miner_process m tr).

(** ** The frontend: class [GpuMiner] *)

Definition callback := string.

Module GpuMiner.
Section WithSolverClass.

(** The solver type handed over to the backend, opaque here. *)
Variable SolverClass : Type.

Record t := mk {
  solver_class : SolverClass;
  work_queue : qref;
  result_queue : qref;
  gpu_id : Z * Z;
  (* attributes kept by AsyncMiner / GenericMiner *)
  solver_nonce : option bytes;
  counter : callback;
  nonce1 : option bytes;
  last_received_job : option Job;
  on_share : option callback;
  _stop : bool
}.

Definition with_nonce1 (n1 : option bytes) (s : t) : t :=
  mk (solver_class s) (work_queue s) (result_queue s) (gpu_id s) (solver_nonce s)
     (counter s) n1 (last_received_job s) (on_share s) (_stop s).

Definition with_job (job : option Job) (cb : option callback) (s : t) : t :=
  mk (solver_class s) (work_queue s) (result_queue s) (gpu_id s) (solver_nonce s)
     (counter s) (nonce1 s) job cb (_stop s).

Definition with_stop (b : bool) (s : t) : t :=
  mk (solver_class s) (work_queue s) (result_queue s) (gpu_id s) (solver_nonce s)
     (counter s) (nonce1 s) (last_received_job s) (on_share s) b.

(** Modelled from the spec: [AsyncMiner.__init__] is not in src; it
    "manages generic state: current job, current nonce1, stop flag",
    none of them set at construction.  The two queues are the ones
    [GpuMiner.__init__] asks a new manager for. *)
Definition __init__ (solver_nonce : option bytes) (counter : callback)
    (gpu_id : Z * Z) (solver_class : SolverClass) : World t :=
  mkWorld (mk solver_class WorkQ ResultQ gpu_id solver_nonce counter None None None false)
          (mkManager [] []) [].

(** Modelled from the spec: the base [set_nonce1] is not in src; it
    "stores nonce1". *)
Definition base_set_nonce1 (n1 : option bytes) : M t unit :=
  s <- get_self ;;
  set_self (with_nonce1 n1 s).

(** Modelled from the spec: the base [register_new_job] is not in src;
    it "records the job and the share-submission callback". *)
Definition base_register_new_job (job : option Job) (cb : option callback) : M t unit :=
  s <- get_self ;;
  set_self (with_job job cb s).

(** Modelled from the spec: the base [count_solutions] is not in src;
    it applies the received counter to the shared accounting
    callback. *)
Definition count_solutions (counted : Z) : M t unit :=
  emit (EvCounter counted).

(** Modelled from the spec: the base [submit_solution] is not in src;
    it forwards [(job, nonce2, solution)] for submission. *)
Definition submit_solution (job : Job) (nonce2 len_and_solution : bytes) : M t unit :=
  emit (EvShare job nonce2 len_and_solution).

Definition _enqueue_last_mining_job : M t unit :=
  s <- get_self ;;
  match last_received_job s, nonce1 s with
  | Some j, Some _ =>
      log INFO (MsgQueueingNewJob (job_id j)) ;;
      queue_put (work_queue s) (MiningContext (last_received_job s) (nonce1 s) (solver_nonce s))
  | _, _ => ret tt
  end.

Definition set_nonce1 (n1 : option bytes) : M t unit :=
  base_set_nonce1 n1 ;;
  _enqueue_last_mining_job.

Definition register_new_job (job : option Job) (cb : option callback) : M t unit :=
  base_register_new_job job cb ;;
  _enqueue_last_mining_job.

(** Unpacking into [(job, nonce2, len_and_solution, counted)]. *)
Definition unpack4 (it : item) : M t (Job * bytes * bytes * Z) :=
  match it with
  | SolutionMessage j n2 sol c => ret (j, n2, sol, c)
  | MiningContext _ _ _ => raise ValueError
  end.

(** The part of [run] before the loop: the backend is handed to a
    process pool, which does not wait for it. *)
Definition run_setup : M t unit :=
  log DEBUG MsgStartingBackend ;;
  s <- get_self ;;
  emit (EvSpawnWorker (solver_nonce s) (gpu_id s) (result_queue s) (work_queue s)).

(** One test of [while not self._stop] and, when it passes, one pass
    through the body.  [false]: the loop is left. *)
Definition loop_body : M t bool :=
  s <- get_self ;;
  if _stop s then ret false
  else
    it <- queue_get (result_queue s) ;;
    msg <- unpack4 it ;;
    let '(job, nonce2, len_and_solution, counted) := msg in
    log DEBUG MsgReceivedSolution ;;
    count_solutions counted ;;
    submit_solution job nonce2 len_and_solution ;;
    ret true.

Fixpoint loop (fuel : nat) : M t unit :=
  match fuel with
  | O => pending
  | S fuel' =>
      again <- loop_body ;;
      if again then loop fuel' else ret tt
  end.

Definition run (fuel : nat) : M t unit :=
  run_setup ;;
  loop fuel.

End WithSolverClass.

Arguments mk {SolverClass} _ _ _ _ _ _ _ _ _ _.
Arguments solver_class {SolverClass} _.
Arguments work_queue {SolverClass} _.
Arguments result_queue {SolverClass} _.
Arguments gpu_id {SolverClass} _.
Arguments solver_nonce {SolverClass} _.
Arguments counter {SolverClass} _.
Arguments nonce1 {SolverClass} _.
Arguments last_received_job {SolverClass} _.
Arguments on_share {SolverClass} _.
Arguments _stop {SolverClass} _.
Arguments with_nonce1 {SolverClass} _ _.
Arguments with_job {SolverClass} _ _ _.
Arguments with_stop {SolverClass} _ _.
Arguments __init__ {SolverClass} _ _ _ _.
Arguments base_set_nonce1 {SolverClass} _.
Arguments base_register_new_job {SolverClass} _ _.
Arguments count_solutions {SolverClass} _.
Arguments submit_solution {SolverClass} _ _ _.
Arguments _enqueue_last_mining_job {SolverClass}.
Arguments set_nonce1 {SolverClass} _.
Arguments register_new_job {SolverClass} _ _.
Arguments unpack4 {SolverClass} _.
Arguments run_setup {SolverClass}.
Arguments loop_body {SolverClass}.
Arguments loop {SolverClass} _.
Arguments run {SolverClass} _.

(** [__format__]: the format spec is not looked at. *)
Definition __format__ {SolverClass : Type} (s : t SolverClass) (format_spec : string)
    : string :=
  ("Async-frontend-GPU[" ++ str_int (fst (gpu_id s)) ++ ":" ++ str_int (snd (gpu_id s))
                         ++ "]")%string.

End GpuMiner.

(** ** Drivers and test data *)

(** A run of [count_solutions] calls, as [do_pow] makes them between
    two submissions. *)
Fixpoint count_all {Solver : Type} (counts : list Z) : M (GpuMinerProcess.t Solver) unit :=
  match counts with
  | [] => ret tt
  | c :: counts' => GpuMinerProcess.count_solutions c ;; count_all counts'
  end.

Definition total (counts : list Z) : Z := fold_right Z.add 0 counts.

(** A solver that plays back a script: per [do_pow] call, the calls
    to make and the exception to end with, if any. *)
Definition scripted := list (list GpuMinerProcess.pow_call * option exn).

Definition scripted_solve (s : scripted) (_ : Job) (_ _ : option bytes)
    : GpuMinerProcess.pow_result scripted :=
  match s with
  | [] => GpuMinerProcess.mkPow [] None []
  | (calls, e) :: rest => GpuMinerProcess.mkPow calls e rest
  end.

Definition scripted_class (s : scripted) : Z * Z -> bool -> exn + scripted :=
  fun _ _ => inr s.

Definition failing_class (e : exn) : Z * Z -> bool -> exn + scripted :=
  fun _ _ => inl e.

Definition J1 : Job := mkJob "1a" [x01; x02].
Definition J2 : Job := mkJob "1b" [x03; x04].
Definition N1 : bytes := [xab; xcd].
Definition SN : bytes := [x00; x07].

(** A backend inside its loop: [run] has installed the result queue. *)
Definition started_worker (n1 sn : option bytes) (count : Z) : GpuMinerProcess.t scripted :=
  GpuMinerProcess.mk (scripted_class []) count (0, 0) (Some ResultQ) n1 sn false.

Definition ctx1 : item := MiningContext (Some J1) (Some N1) (Some SN).
Definition ctx2 : item := MiningContext (Some J2) (Some N1) (Some SN).

Definition no_queues : Manager := mkManager [] [].

(** A backend in its loop with a full context and 7 attempts counted. *)
Definition w_full : World (GpuMinerProcess.t scripted) :=
  mkWorld (started_worker (Some N1) (Some SN) 7) no_queues [].

(** A backend in its loop that has not heard of nonce1 yet. *)
Definition w_waiting : World (GpuMinerProcess.t scripted) :=
  mkWorld (started_worker None (Some SN) 0) no_queues [].

(** A backend on which [run] has not been called yet. *)
Definition w_not_started : World (GpuMinerProcess.t scripted) :=
  mkWorld (GpuMinerProcess.__init__ (Some SN) (0, 0) (scripted_class []) false) no_queues [].

(** A backend in its loop with two contexts waiting. *)
Definition w_two_waiting : World (GpuMinerProcess.t scripted) :=
  mkWorld (started_worker None (Some SN) 0) (mkManager [ctx1; ctx2] []) [].

(** A new frontend, with and without a solver nonce. *)
Definition fresh_frontend : World (GpuMiner.t unit) :=
  GpuMiner.__init__ (Some SN) "counter"%string (0, 0) tt.

Definition fresh_frontend_no_solver_nonce : World (GpuMiner.t unit) :=
  GpuMiner.__init__ None "counter"%string (0, 0) tt.

(** The frontend after a job, nonce1 and a second job: two enqueues,
    no poll in between. *)
Definition two_enqueues : M (GpuMiner.t unit) unit :=
  GpuMiner.register_new_job (Some J1) (Some "on_share"%string) ;;
  GpuMiner.set_nonce1 (Some N1) ;;
  GpuMiner.register_new_job (Some J2) (Some "on_share"%string).

Definition frontend_after_two_enqueues : World (GpuMiner.t unit) :=
  snd (two_enqueues fresh_frontend).

(** The frontend without solver nonce after a job and nonce1. *)
Definition frontend_after_enqueue_no_solver_nonce : World (GpuMiner.t unit) :=
  snd ((GpuMiner.register_new_job (Some J1) (Some "on_share"%string) ;;
        GpuMiner.set_nonce1 (Some N1)) fresh_frontend_no_solver_nonce).

(** A frontend with a solution waiting on its result queue. *)
Definition frontend_with_result : World (GpuMiner.t unit) :=
  mkWorld (self fresh_frontend) (mkManager [] [SolutionMessage J1 [x09] [x0a; x0b] 12]) [].

(** The only worlds the loop of [run] can be in with a local [job]:
    whether both tested parts of the context are there. *)
Definition full_context {Solver : Type} (job : option Job) (s : GpuMinerProcess.t Solver) : bool :=
  match job, GpuMinerProcess.nonce1 s with
  | Some _, Some _ => true
  | _, _ => false
  end.

(** A [do_pow] call made with both nonces; any other event passes. *)
Definition pow_has_nonces (e : event) : bool :=
  match e with
  | EvDoPow _ (Some _) (Some _) => true
  | EvDoPow _ _ _ => false
  | _ => true
  end.

(** What the loop of [run] keeps between two passes: the local [job]
    is only ever held together with the nonces that came with it. *)
Definition context_coherent {Solver : Type} (job : option Job) (s : GpuMinerProcess.t Solver)
    : bool :=
  match job with
  | None => true
  | Some _ =>
      match GpuMinerProcess.nonce1 s, GpuMinerProcess.solver_nonce s with
      | Some _, Some _ => true
      | _, _ => false
      end
  end.

(** What the idling branch of the loop leaves in the trace. *)
Definition idle_events : list event :=
  [EvLog DEBUG MsgNoNonce1Waiting; EvSleep 2; EvPrint "."].

(** The backend loop seen from outside: between two passes the other
    processes may do anything to the queues. *)
Inductive worker_step {Solver : Type}
    (solve : Solver -> Job -> option bytes -> option bytes -> GpuMinerProcess.pow_result Solver)
    (work_queue : qref)
    : Solver * option Job * World (GpuMinerProcess.t Solver) ->
      Solver * option Job * World (GpuMinerProcess.t Solver) -> Prop :=
| step_queues solver job w m' :
    worker_step solve work_queue
      (solver, job, w) (solver, job, mkWorld (self w) m' (trace w))
| step_pass solver job w solver' job' w' :
    GpuMinerProcess.loop_body solve work_queue solver job w = (Ok (solver', job'), w') ->
    worker_step solve work_queue (solver, job, w) (solver', job', w').

Inductive worker_steps {Solver : Type}
    (solve : Solver -> Job -> option bytes -> option bytes -> GpuMinerProcess.pow_result Solver)
    (work_queue : qref)
    : Solver * option Job * World (GpuMinerProcess.t Solver) ->
      Solver * option Job * World (GpuMinerProcess.t Solver) -> Prop :=
| steps_refl st : worker_steps solve work_queue st st
| steps_snoc st st' st'' :
    worker_steps solve work_queue st st' ->
    worker_step solve work_queue st' st'' ->
    worker_steps solve work_queue st st''.

(** ** Measures and drivers for whole runs *)

(** The attempts reported and the solutions submitted by a run of
    calls on the backend. *)
Fixpoint calls_total (cs : list GpuMinerProcess.pow_call) : Z :=
  match cs with
  | [] => 0
  | GpuMinerProcess.CountSolutions c :: cs' => c + calls_total cs'
  | GpuMinerProcess.SubmitSolution _ _ :: cs' => calls_total cs'
  end.

Fixpoint submissions (cs : list GpuMinerProcess.pow_call) : nat :=
  match cs with
  | [] => O
  | GpuMinerProcess.CountSolutions _ :: cs' => submissions cs'
  | GpuMinerProcess.SubmitSolution _ _ :: cs' => S (submissions cs')
  end.

Definition counts_nonneg (cs : list GpuMinerProcess.pow_call) : Prop :=
  Forall (fun c => match c with
                   | GpuMinerProcess.CountSolutions n => 0 <= n
                   | GpuMinerProcess.SubmitSolution _ _ => True
                   end) cs.

(** The attempts carried by the items of a queue. *)
Definition counted_of (it : item) : Z :=
  match it with
  | SolutionMessage _ _ _ c => c
  | MiningContext _ _ _ => 0
  end.

Definition sum_counted (l : list item) : Z :=
  fold_right (fun it acc => counted_of it + acc) 0 l.

Definition solution_for (job : Job) (it : item) : Prop :=
  exists n2 sol c, it = SolutionMessage job n2 sol c.

Definition is_solution (it : item) : bool :=
  match it with
  | SolutionMessage _ _ _ _ => true
  | MiningContext _ _ _ => false
  end.

(** What the frontend loop leaves in the trace for one item. *)
Definition solution_events (it : item) : list event :=
  match it with
  | SolutionMessage j n2 sol c =>
      [EvLog DEBUG MsgReceivedSolution; EvCounter c; EvShare j n2 sol]
  | MiningContext _ _ _ => []
  end.

(** The attempts handed to the accounting callback along a trace. *)
Fixpoint counter_total (tr : list event) : Z :=
  match tr with
  | [] => 0
  | EvCounter c :: tr' => c + counter_total tr'
  | _ :: tr' => counter_total tr'
  end.

(** The notifications the upstream client sends the frontend. *)
Inductive front_call :=
| CallSetNonce1 (n1 : option bytes)
| CallRegisterNewJob (job : option Job) (cb : option callback).

Definition front_call_run {C : Type} (c : front_call) : M (GpuMiner.t C) unit :=
  match c with
  | CallSetNonce1 n1 => GpuMiner.set_nonce1 n1
  | CallRegisterNewJob job cb => GpuMiner.register_new_job job cb
  end.

Fixpoint front_calls_run {C : Type} (cs : list front_call) : M (GpuMiner.t C) unit :=
  match cs with
  | [] => ret tt
  | c :: cs' => front_call_run c ;; front_calls_run cs'
  end.

(** A context as [_enqueue_last_mining_job] sends it. *)
Definition ready_context (sn : option bytes) (it : item) : Prop :=
  exists j n1, it = MiningContext (Some j) (Some n1) sn.

(** The part of the trace [run] writes before its loop. *)
Definition setup_events (gpu : Z * Z) (v : bool) : list event :=
  [EvLog DEBUG (MsgInstantiating v); EvSolverInit gpu v; EvLog DEBUG (MsgInstantiated v)].

(** Characters of a string, to tell separators from digits. *)
Fixpoint has_char (c : ascii) (s : string) : bool :=
  match s with
  | EmptyString => false
  | String a s' => Ascii.eqb a c || has_char c s'
  end.

(** More test data. *)
Definition calls_demo : list GpuMinerProcess.pow_call :=
  [GpuMinerProcess.CountSolutions 3; GpuMinerProcess.SubmitSolution [x09] [x0a];
   GpuMinerProcess.CountSolutions 4; GpuMinerProcess.CountSolutions 5;
   GpuMinerProcess.SubmitSolution [x0b] [x0c]; GpuMinerProcess.CountSolutions 2].

Definition front_calls_demo : list front_call :=
  [CallRegisterNewJob (Some J1) (Some "on_share"%string);
   CallSetNonce1 (Some N1);
   CallSetNonce1 None;
   CallRegisterNewJob (Some J2) (Some "on_share"%string);
   CallSetNonce1 (Some N1)].

Definition w_incomplete_waiting : World (GpuMinerProcess.t scripted) :=
  mkWorld (started_worker None (Some SN) 0)
          (mkManager [MiningContext (Some J1) None (Some SN); ctx2] []) [].

Definition w_switch : World (GpuMinerProcess.t scripted) :=
  mkWorld (started_worker (Some N1) (Some SN) 0) (mkManager [ctx2] []) [].

Definition w_cannot_build : World (GpuMinerProcess.t scripted) :=
  mkWorld (GpuMinerProcess.__init__ (Some SN) (0, 0)
             (failing_class (SolverError "no device")) true)
          (mkManager [ctx1] []) [].

(** The frontend after nonce1 and then a job. *)
Definition frontend_after_nonce_then_job : World (GpuMiner.t unit) :=
  snd (front_calls_run [CallSetNonce1 (Some N1); CallRegisterNewJob (Some J1) None]
         fresh_frontend).

Definition frontend_with_two_results : World (GpuMiner.t unit) :=
  mkWorld (self fresh_frontend)
          (mkManager [ctx1] [SolutionMessage J1 [x09] [x0a] 3; SolutionMessage J1 [x0b] [x0c] 9])
          [].

(** * Properties *)

(** ** Monad bookkeeping *)

Ltac py_unfold :=
  unfold bind, ret, raise, pending, get_self, set_self, log, emit,
         queue_put, queue_get, queue_get_nowait, try_except, hexlify in *.

Lemma bind_ok {S A B} (m : M S A) (k : A -> M S B) w a w' :
  m w = (Ok a, w') -> bind m k w = k a w'.
Proof. intros H. unfold bind. now rewrite H. Qed.

Lemma bind_raise {S A B} (m : M S A) (k : A -> M S B) w e w' :
  m w = (Raise e, w') -> bind m k w = (Raise e, w').
Proof. intros H. unfold bind. now rewrite H. Qed.

Lemma q_items_store_same q l m : q_items q (q_store q l m) = l.
Proof. now destruct q. Qed.

Lemma q_items_store_other q q' l m :
  q <> q' -> q_items q (q_store q' l m) = q_items q m.
Proof. destruct q, q'; simpl; congruence. Qed.

(** ** The backend's two callbacks *)

Section Callbacks.
Context {Solver : Type}.
Local Abbreviation worker := (GpuMinerProcess.t Solver).
Implicit Types (w : World worker) (q : qref).

Lemma count_solutions_run count w :
  GpuMinerProcess.count_solutions count w =
  (Ok tt, mkWorld (GpuMinerProcess.set_solution_count
                     (GpuMinerProcess.solution_count (self w) + count) (self w))
                  (mgr w) (trace w)).
Proof. reflexivity. Qed.

Lemma count_all_run counts : forall w,
  count_all counts w =
  (Ok tt, mkWorld (GpuMinerProcess.set_solution_count
                     (GpuMinerProcess.solution_count (self w) + total counts) (self w))
                  (mgr w) (trace w)).
Proof.
  induction counts as [|c counts IH]; intros [s m tr]; simpl.
  - unfold ret. destruct s; simpl. now rewrite Z.add_0_r.
  - erewrite bind_ok by apply count_solutions_run.
    rewrite IH. simpl. destruct s; simpl. unfold GpuMinerProcess.set_solution_count; simpl.
    now rewrite Z.add_assoc.
Qed.

Lemma submit_solution_installed job n2 sol w q :
  GpuMinerProcess.result_queue (self w) = Some q ->
  GpuMinerProcess.submit_solution job n2 sol w =
  (Ok tt,
   mkWorld (GpuMinerProcess.set_solution_count 0 (self w))
           (q_store q (q_items q (mgr w) ++
                       [SolutionMessage job n2 sol (GpuMinerProcess.solution_count (self w))])
                    (mgr w))
           (trace w)).
Proof.
  intros H. unfold GpuMinerProcess.submit_solution. py_unfold. simpl. now rewrite H.
Qed.

Lemma submit_solution_missing job n2 sol w :
  GpuMinerProcess.result_queue (self w) = None ->
  GpuMinerProcess.submit_solution job n2 sol w = (Raise AssertionError, w).
Proof.
  intros H. unfold GpuMinerProcess.submit_solution. py_unfold. simpl. now rewrite H.
Qed.

End Callbacks.

(** ** The solve-attempt counter *)

Section Counter.
Context {Solver : Type}.
Local Abbreviation worker := (GpuMinerProcess.t Solver).

(** C1.  On a worker whose result queue is installed, a submission
    leaves the counter at 0; whatever [count_solutions] calls follow,
    the next submission appends to the result queue exactly one
    Solution Message, carrying the sum of those counts and nothing of
    what was counted before the previous submission, and leaves the
    counter at 0 again. *)
Theorem submit_solution_carries_attempts_since_last
    (w : World worker) (q : qref) (job0 job : Job) (n0 s0 n2 sol : bytes)
    (counts : list Z) :
  GpuMinerProcess.result_queue (self w) = Some q ->
  exists w1 w2,
    GpuMinerProcess.submit_solution job0 n0 s0 w = (Ok tt, w1) /\
    GpuMinerProcess.solution_count (self w1) = 0 /\
    (count_all counts ;; GpuMinerProcess.submit_solution job n2 sol) w1 = (Ok tt, w2) /\
    q_items q (mgr w2) = q_items q (mgr w1) ++ [SolutionMessage job n2 sol (total counts)] /\
    GpuMinerProcess.solution_count (self w2) = 0.
Proof.
  intros Hq.
  eexists. eexists. split.
  { apply submit_solution_installed. exact Hq. }
  split; [reflexivity|].
  split.
  { erewrite bind_ok by apply count_all_run.
    apply submit_solution_installed. simpl. exact Hq. }
  simpl. rewrite !q_items_store_same. split; reflexivity.
Qed.

(** The counter also starts at 0, so the first Solution Message of a
    worker carries exactly what was counted since construction. *)
Lemma first_submission_carries_all_attempts
    (sn : option bytes) (gpu : Z * Z) (cls : Z * Z -> bool -> exn + Solver) (v : bool)
    (rq : qref) (m : Manager) (tr : list event)
    (job : Job) (n2 sol : bytes) (counts : list Z) :
  let s := GpuMinerProcess.set_result_queue (Some rq) (GpuMinerProcess.__init__ sn gpu cls v) in
  exists w',
    (count_all counts ;; GpuMinerProcess.submit_solution job n2 sol) (mkWorld s m tr)
      = (Ok tt, w') /\
    q_items rq (mgr w') = q_items rq m ++ [SolutionMessage job n2 sol (total counts)] /\
    GpuMinerProcess.solution_count (self w') = 0.
Proof.
  intros s. eexists. split.
  { erewrite bind_ok by apply count_all_run.
    apply submit_solution_installed. reflexivity. }
  simpl. rewrite q_items_store_same. split; reflexivity.
Qed.

(** C10.  [submit_solution] on a worker whose result queue is still
    [None] fails its assertion and changes nothing; with a queue
    installed it returns normally, having appended its message; and
    the setup part of [run], when it returns, has installed the queue
    it was given, after which every sequence of calls [do_pow] makes
    on the worker returns normally. *)
Theorem submit_solution_needs_result_queue
    (w : World worker) (job : Job) (n2 sol : bytes) :
  (GpuMinerProcess.result_queue (self w) = None ->
   GpuMinerProcess.submit_solution job n2 sol w = (Raise AssertionError, w)) /\
  (forall q, GpuMinerProcess.result_queue (self w) = Some q ->
   exists w', GpuMinerProcess.submit_solution job n2 sol w = (Ok tt, w') /\
              q_items q (mgr w') =
              q_items q (mgr w) ++
              [SolutionMessage job n2 sol (GpuMinerProcess.solution_count (self w))]) /\
  (forall rq solver w1, GpuMinerProcess.run_setup rq w = (Ok solver, w1) ->
   GpuMinerProcess.result_queue (self w1) = Some rq /\
   forall calls, exists w2,
     GpuMinerProcess.do_calls job calls w1 = (Ok tt, w2) /\
     GpuMinerProcess.result_queue (self w2) = Some rq).
Proof.
  split; [apply submit_solution_missing|].
  split.
  { intros q Hq. eexists. split; [apply submit_solution_installed; exact Hq|].
    simpl. now rewrite q_items_store_same. }
  intros rq solver w1 Hrun.
  assert (Hrq : GpuMinerProcess.result_queue (self w1) = Some rq).
  { unfold GpuMinerProcess.run_setup, GpuMinerProcess.construct_solver in Hrun.
    py_unfold. simpl in Hrun.
    destruct (GpuMinerProcess.solver_class (self w) (GpuMinerProcess.gpu_id (self w))
                (GpuMinerProcess.verbose (self w))); inversion Hrun; reflexivity. }
  split; [exact Hrq|].
  intros calls. clear Hrun. revert w1 Hrq.
  induction calls as [|[c|n2' sol'] calls IH]; intros w1 Hrq; simpl.
  - eexists. split; [reflexivity|exact Hrq].
  - erewrite bind_ok by apply count_solutions_run.
    apply IH. exact Hrq.
  - erewrite bind_ok by (apply submit_solution_installed; exact Hrq).
    apply IH. exact Hrq.
Qed.

End Counter.

(** ** The backend loop *)

Section WorkerLoop.
Context {Solver : Type}.
Variable solve : Solver -> Job -> option bytes -> option bytes -> GpuMinerProcess.pow_result Solver.
Variable work_queue : qref.
Local Abbreviation worker := (GpuMinerProcess.t Solver).
Implicit Types (w : World worker) (job : option Job) (solver : Solver).

(** What the calls of [do_pow] can touch: the counter and the queue
    installed as result queue. *)
Lemma do_calls_frame j calls : forall w r w',
  GpuMinerProcess.do_calls j calls w = (r, w') ->
  trace w' = trace w /\
  (exists c, self w' = GpuMinerProcess.set_solution_count c (self w)) /\
  (forall q, GpuMinerProcess.result_queue (self w) <> Some q ->
             q_items q (mgr w') = q_items q (mgr w)) /\
  r <> Pending.
Proof.
  induction calls as [|[c|n2 sol] calls IH]; intros w r w' H; simpl in H.
  - inversion H; subst. repeat split; try discriminate.
    exists (GpuMinerProcess.solution_count (self w')). now destruct (self w').
  - erewrite bind_ok in H by apply count_solutions_run.
    apply IH in H. simpl in H. destruct H as (Ht & [c' Hs] & Hq & Hr).
    repeat split; auto. exists c'. exact Hs.
  - destruct (GpuMinerProcess.result_queue (self w)) as [rq|] eqn:Hrq.
    + erewrite bind_ok in H by (apply submit_solution_installed; exact Hrq).
      apply IH in H. simpl in H. destruct H as (Ht & [c' Hs] & Hq & Hr).
      repeat split; auto.
      * exists c'. exact Hs.
      * intros q Hne. rewrite Hq by (rewrite Hrq; exact Hne).
        apply q_items_store_other. congruence.
    + erewrite bind_raise in H by (apply submit_solution_missing; exact Hrq).
      inversion H; subst. repeat split; try discriminate.
      exists (GpuMinerProcess.solution_count (self w')). now destruct (self w').
Qed.

Lemma do_pow_frame solver j w r w' :
  GpuMinerProcess.do_pow solve solver j w = (r, w') ->
  trace w' = trace w ++ [EvDoPow j (GpuMinerProcess.nonce1 (self w))
                                   (GpuMinerProcess.solver_nonce (self w))] /\
  (exists c, self w' = GpuMinerProcess.set_solution_count c (self w)) /\
  (forall q, GpuMinerProcess.result_queue (self w) <> Some q ->
             q_items q (mgr w') = q_items q (mgr w)) /\
  r <> Pending.
Proof.
  unfold GpuMinerProcess.do_pow. intros H.
  unfold bind at 1 in H. unfold get_self in H.
  unfold bind at 1 in H. unfold emit at 1 in H.
  unfold bind at 1 in H.
  match type of H with
  | context [GpuMinerProcess.do_calls j ?cs ?w0] =>
      destruct (GpuMinerProcess.do_calls j cs w0) as [r0 w0'] eqn:Hc
  end.
  apply do_calls_frame in Hc. simpl in Hc. destruct Hc as (Ht & Hs & Hq & Hr).
  destruct r0 as [[]|e|]; [|inversion H; subst; repeat split; auto; discriminate|congruence].
  destruct (GpuMinerProcess.pow_raises _); unfold raise, ret in H; inversion H; subst;
    repeat split; auto; discriminate.
Qed.

(** With the result queue installed, [do_pow] ends the way the solver
    does. *)
Lemma do_pow_installed solver j w rq :
  GpuMinerProcess.result_queue (self w) = Some rq ->
  exists w',
    GpuMinerProcess.do_pow solve solver j w =
    (match GpuMinerProcess.pow_raises
             (solve solver j (GpuMinerProcess.nonce1 (self w))
                    (GpuMinerProcess.solver_nonce (self w))) with
     | Some e => Raise e
     | None => Ok (GpuMinerProcess.pow_solver
                     (solve solver j (GpuMinerProcess.nonce1 (self w))
                            (GpuMinerProcess.solver_nonce (self w))))
     end, w').
Proof.
  intros Hrq. unfold GpuMinerProcess.do_pow.
  unfold bind at 1. unfold get_self. unfold bind at 1. unfold emit at 1.
  set (r := solve solver j _ _).
  assert (Hc : exists w2, GpuMinerProcess.do_calls j (GpuMinerProcess.pow_calls r)
                 (mkWorld (self w) (mgr w)
                    (trace w ++ [EvDoPow j (GpuMinerProcess.nonce1 (self w))
                                           (GpuMinerProcess.solver_nonce (self w))]))
               = (Ok tt, w2)).
  { generalize (GpuMinerProcess.pow_calls r).
    generalize (trace w ++ [EvDoPow j (GpuMinerProcess.nonce1 (self w))
                                      (GpuMinerProcess.solver_nonce (self w))]).
    generalize (mgr w). revert Hrq. generalize (self w). clear.
    intros s Hrq m tr calls. revert s m Hrq.
    induction calls as [|[c|n2 sol] calls IH]; intros s m Hrq; simpl.
    - eexists; reflexivity.
    - erewrite bind_ok by apply count_solutions_run. apply IH. exact Hrq.
    - erewrite bind_ok by (apply submit_solution_installed; exact Hrq).
      apply IH. exact Hrq. }
  destruct Hc as [w2 Hc]. erewrite bind_ok by exact Hc.
  destruct (GpuMinerProcess.pow_raises r); eexists; reflexivity.
Qed.

(** The three ways through the [try] block. *)
Lemma fetch_empty_idle job w :
  q_items work_queue (mgr w) = [] ->
  full_context job (self w) = false ->
  GpuMinerProcess.fetch work_queue job w =
  (Ok GpuMinerProcess.Continue, mkWorld (self w) (mgr w) (trace w ++ idle_events)).
Proof.
  intros Hq Hc. unfold GpuMinerProcess.fetch, full_context in *. py_unfold. simpl.
  rewrite Hq. simpl.
  destruct job as [j|]; [destruct (GpuMinerProcess.nonce1 (self w)); [discriminate|]|];
    simpl; now rewrite <- !app_assoc.
Qed.

Lemma fetch_empty_solve job w j n1 :
  q_items work_queue (mgr w) = [] ->
  job = Some j ->
  GpuMinerProcess.nonce1 (self w) = Some n1 ->
  GpuMinerProcess.fetch work_queue job w =
  (Ok (GpuMinerProcess.Solve j),
   mkWorld (self w) (mgr w) (trace w ++ [EvLog DEBUG MsgNoNewJob])).
Proof.
  intros Hq -> Hn. unfold GpuMinerProcess.fetch. py_unfold. simpl.
  rewrite Hq. simpl. now rewrite Hn.
Qed.

Lemma fetch_received job w j n1 sn rest :
  q_items work_queue (mgr w) = MiningContext (Some j) (Some n1) (Some sn) :: rest ->
  GpuMinerProcess.fetch work_queue job w =
  (Ok (GpuMinerProcess.Solve j),
   mkWorld (GpuMinerProcess.set_nonces (Some n1) (Some sn) (self w))
           (q_store work_queue rest (mgr w))
           (trace w ++ [EvLog INFO (MsgReceivedJob (job_id j) (hexlify_bytes n1)
                                                   (hexlify_bytes sn))])).
Proof.
  intros Hq. unfold GpuMinerProcess.fetch, GpuMinerProcess.unpack3. py_unfold. simpl.
  rewrite Hq. reflexivity.
Qed.

(** A received context with a part missing never reaches [do_pow]:
    building the log line raises first. *)
Lemma fetch_received_incomplete job w oj on1 osn rest :
  q_items work_queue (mgr w) = MiningContext oj on1 osn :: rest ->
  oj = None \/ on1 = None \/ osn = None ->
  exists e, is_QueueEmpty e = false /\
    GpuMinerProcess.fetch work_queue job w =
    (Raise e, mkWorld (GpuMinerProcess.set_nonces on1 osn (self w))
                      (q_store work_queue rest (mgr w)) (trace w)).
Proof.
  intros Hq Hnone. unfold GpuMinerProcess.fetch, GpuMinerProcess.unpack3. py_unfold. simpl.
  rewrite Hq. simpl.
  destruct oj as [j|]; [|exists AttributeError; split; reflexivity].
  destruct on1 as [n1|]; simpl; [|exists TypeError; split; reflexivity].
  destruct osn as [sn|]; simpl; [|exists TypeError; split; reflexivity].
  destruct Hnone as [H|[H|H]]; discriminate.
Qed.

(** Whenever the [try] block is left normally. *)
Lemma fetch_ok job w f w' :
  GpuMinerProcess.fetch work_queue job w = (Ok f, w') ->
  match f with
  | GpuMinerProcess.Continue =>
      full_context job (self w) = false /\ trace w' = trace w ++ idle_events /\
      self w' = self w
  | GpuMinerProcess.Solve j =>
      full_context (Some j) (self w') = true /\
      exists ev, trace w' = trace w ++ [ev] /\ is_sleep ev = false
  end.
Proof.
  intros H.
  destruct (q_items work_queue (mgr w)) as [|it rest] eqn:Hq.
  - destruct (full_context job (self w)) eqn:Hc.
    + unfold full_context in Hc.
      destruct job as [j|]; [|discriminate].
      destruct (GpuMinerProcess.nonce1 (self w)) as [n1|] eqn:Hn; [|discriminate].
      rewrite (fetch_empty_solve (Some j) w j n1 Hq eq_refl Hn) in H.
      inversion H; subst; simpl. unfold full_context. simpl. rewrite Hn.
      split; [reflexivity|]. eexists; split; reflexivity.
    + rewrite (fetch_empty_idle job w Hq Hc) in H. inversion H; subst; simpl.
      repeat split; reflexivity.
  - destruct it as [oj on1 osn|j n2 sol c].
    + destruct oj as [j|]; [destruct on1 as [n1|]; [destruct osn as [sn|]|]|].
      * rewrite (fetch_received job w j n1 sn rest Hq) in H.
        inversion H; subst; simpl. split; [reflexivity|].
        eexists; split; reflexivity.
      * destruct (fetch_received_incomplete job w _ _ _ rest Hq) as (e & _ & He);
          [right; right; reflexivity|]. rewrite He in H. discriminate.
      * destruct (fetch_received_incomplete job w _ _ _ rest Hq) as (e & _ & He);
          [right; left; reflexivity|]. rewrite He in H. discriminate.
      * destruct (fetch_received_incomplete job w _ _ _ rest Hq) as (e & _ & He);
          [left; reflexivity|]. rewrite He in H. discriminate.
    + unfold GpuMinerProcess.fetch, GpuMinerProcess.unpack3 in H. py_unfold. simpl in H.
      rewrite Hq in H. simpl in H. discriminate.
Qed.

End WorkerLoop.

Section WorkerLoopClaims.
Context {Solver : Type}.
Variable solve : Solver -> Job -> option bytes -> option bytes -> GpuMinerProcess.pow_result Solver.
Variable work_queue : qref.
Local Abbreviation worker := (GpuMinerProcess.t Solver).
Implicit Types (w : World worker) (job : option Job) (solver : Solver).

(** The idling pass, shared by the claims below. *)
Lemma loop_body_idle solver job w :
  q_items work_queue (mgr w) = [] ->
  job = None \/ GpuMinerProcess.nonce1 (self w) = None ->
  GpuMinerProcess.loop_body solve work_queue solver job w =
  (Ok (solver, job), mkWorld (self w) (mgr w) (trace w ++ idle_events)).
Proof.
  intros Hq Habs.
  assert (Hc : full_context job (self w) = false).
  { unfold full_context. destruct Habs as [-> | ->]; [reflexivity|now destruct job]. }
  unfold GpuMinerProcess.loop_body.
  erewrite bind_ok by (apply fetch_empty_idle; assumption). reflexivity.
Qed.

(** The solving pass on an empty poll, shared by the claims below. *)
Lemma loop_body_resolve solver j n1 w r w' :
  q_items work_queue (mgr w) = [] ->
  GpuMinerProcess.nonce1 (self w) = Some n1 ->
  GpuMinerProcess.loop_body solve work_queue solver (Some j) w = (r, w') ->
  trace w' = trace w ++ [EvLog DEBUG MsgNoNewJob;
                         EvDoPow j (Some n1) (GpuMinerProcess.solver_nonce (self w))].
Proof.
  intros Hq Hn Hbody. unfold GpuMinerProcess.loop_body in Hbody.
  erewrite bind_ok in Hbody by (eapply fetch_empty_solve; eauto).
  unfold bind at 1 in Hbody.
  match type of Hbody with
  | context [GpuMinerProcess.do_pow solve solver j ?w0] =>
      destruct (GpuMinerProcess.do_pow solve solver j w0) as [r0 w2] eqn:Hp
  end.
  apply do_pow_frame in Hp. simpl in Hp. destruct Hp as (Htr & _).
  rewrite Hn in Htr.
  assert (w' = w2) as -> by (destruct r0; unfold ret in Hbody; congruence).
  rewrite Htr, <- app_assoc. reflexivity.
Qed.

(** C4.  A pass through the loop that finds the work queue empty
    while the job or nonce1 is absent does not call [do_pow]: it logs,
    sleeps 2, prints a dot and returns to the head of the loop with
    the solver, the local job, the worker object and the queues as
    they were, so that the next thing the loop does is the receive of
    the next pass. *)
Theorem incomplete_context_sleeps_and_retries solver job w fuel :
  q_items work_queue (mgr w) = [] ->
  job = None \/ GpuMinerProcess.nonce1 (self w) = None ->
  let w' := mkWorld (self w) (mgr w)
              (trace w ++ [EvLog DEBUG MsgNoNonce1Waiting; EvSleep 2; EvPrint "."]) in
  GpuMinerProcess.loop_body solve work_queue solver job w = (Ok (solver, job), w') /\
  GpuMinerProcess.loop solve (S fuel) work_queue solver job w =
  GpuMinerProcess.loop solve fuel work_queue solver job w'.
Proof.
  intros Hq Habs w'.
  pose proof (loop_body_idle solver job w Hq Habs) as Hbody.
  split; [exact Hbody|].
  simpl. erewrite bind_ok by exact Hbody. reflexivity.
Qed.

(** The invariant behind C5: a pass that returns leaves a full
    context whenever it started from one or received one, and adds a
    sleep to the trace only when it started without one. *)
Lemma loop_body_ok solver job w solver' job' w' :
  GpuMinerProcess.loop_body solve work_queue solver job w = (Ok (solver', job'), w') ->
  (full_context job (self w) = true ->
   full_context job' (self w') = true /\
   exists tr, trace w' = trace w ++ tr /\ existsb is_sleep tr = false).
Proof.
  unfold GpuMinerProcess.loop_body. intros H Hfull.
  unfold bind at 1 in H.
  destruct (GpuMinerProcess.fetch work_queue job w) as [[f| |] w1] eqn:Hf; try discriminate.
  apply fetch_ok in Hf. destruct f as [|j].
  - destruct Hf as (Hc & _). congruence.
  - destruct Hf as (Hc & ev & Htr & Hev).
    unfold bind at 1 in H.
    destruct (GpuMinerProcess.do_pow solve solver j w1) as [[s2| |] w2] eqn:Hp;
      try discriminate.
    unfold ret in H. inversion H; subst.
    apply do_pow_frame in Hp. destruct Hp as (Htr2 & [c Hs] & _ & _).
    split.
    + unfold full_context in *. rewrite Hs. simpl. exact Hc.
    + eexists. split.
      * rewrite Htr2, Htr, <- app_assoc. reflexivity.
      * simpl. rewrite Hev. reflexivity.
Qed.

Lemma worker_steps_keep_context st st' :
  worker_steps solve work_queue st st' ->
  full_context (snd (fst st)) (self (snd st)) = true ->
  full_context (snd (fst st')) (self (snd st')) = true /\
  exists tr, trace (snd st') = trace (snd st) ++ tr /\ existsb is_sleep tr = false.
Proof.
  induction 1 as [st | st st' st'' Hsteps IH Hstep]; intros Hfull.
  - split; [exact Hfull|]. exists []. now rewrite app_nil_r.
  - destruct (IH Hfull) as (Hfull' & tr & Htr & Hns).
    destruct Hstep as [solver job w m' | solver job w solver' job' w' Hbody]; simpl in *.
    + split; [exact Hfull'|]. exists tr. split; assumption.
    + destruct (loop_body_ok _ _ _ _ _ _ Hbody Hfull') as (Hfull'' & tr' & Htr' & Hns').
      split; [exact Hfull''|]. exists (tr ++ tr'). split.
      * now rewrite Htr', Htr, app_assoc.
      * rewrite existsb_app, Hns, Hns'. reflexivity.
Qed.

(** C5.  Once the local job and nonce1 are both set, they stay set
    through every later pass of the loop, whatever the other processes
    do to the queues in between; no sleep is ever added to the trace
    again; and every pass that then finds the work queue empty calls
    [do_pow] on the job and nonces it already has. *)
Theorem full_context_never_idles_again solver job w solver' job' w' :
  full_context job (self w) = true ->
  worker_steps solve work_queue (solver, job, w) (solver', job', w') ->
  full_context job' (self w') = true /\
  (exists tr, trace w' = trace w ++ tr /\ existsb is_sleep tr = false) /\
  (q_items work_queue (mgr w') = [] ->
   exists j n1, job' = Some j /\ GpuMinerProcess.nonce1 (self w') = Some n1 /\
     forall r w'', GpuMinerProcess.loop_body solve work_queue solver' job' w' = (r, w'') ->
       trace w'' = trace w' ++ [EvLog DEBUG MsgNoNewJob;
                                EvDoPow j (Some n1) (GpuMinerProcess.solver_nonce (self w'))]).
Proof.
  intros Hfull Hsteps.
  destruct (worker_steps_keep_context _ _ Hsteps Hfull) as (Hfull' & Htrace).
  simpl in Hfull', Htrace.
  split; [exact Hfull'|]. split; [exact Htrace|].
  intros Hq. unfold full_context in Hfull'.
  destruct job' as [j|]; [|discriminate].
  destruct (GpuMinerProcess.nonce1 (self w')) as [n1|] eqn:Hn; [|discriminate].
  exists j, n1. repeat split.
  intros r w'' Hbody. eapply loop_body_resolve; eauto.
Qed.

(** Two complete contexts waiting, a result queue that is not the
    work queue and a first [do_pow] that returns: two passes receive
    both, in the order they were put. *)
Lemma two_complete_contexts_two_passes solver job w rq j1 n1 sn1 j2 n2 sn2 rest :
  q_items work_queue (mgr w) =
    MiningContext (Some j1) (Some n1) (Some sn1) ::
    MiningContext (Some j2) (Some n2) (Some sn2) :: rest ->
  GpuMinerProcess.result_queue (self w) = Some rq ->
  rq <> work_queue ->
  GpuMinerProcess.pow_raises (solve solver j1 (Some n1) (Some sn1)) = None ->
  (exists st1 w1,
     GpuMinerProcess.loop_body solve work_queue solver job w = (Ok st1, w1) /\
     trace w1 = trace w ++
       [EvLog INFO (MsgReceivedJob (job_id j1) (hexlify_bytes n1) (hexlify_bytes sn1));
        EvDoPow j1 (Some n1) (Some sn1)] /\
     q_items work_queue (mgr w1) = MiningContext (Some j2) (Some n2) (Some sn2) :: rest) /\
  let w2 := snd (GpuMinerProcess.loop solve 2 work_queue solver job w) in
  trace w2 = trace w ++
    [EvLog INFO (MsgReceivedJob (job_id j1) (hexlify_bytes n1) (hexlify_bytes sn1));
     EvDoPow j1 (Some n1) (Some sn1);
     EvLog INFO (MsgReceivedJob (job_id j2) (hexlify_bytes n2) (hexlify_bytes sn2));
     EvDoPow j2 (Some n2) (Some sn2)] /\
  q_items work_queue (mgr w2) = rest.
Proof.
  intros Hq Hrq Hne Hpow.
  (* first pass *)
  pose proof (fetch_received work_queue job w j1 n1 sn1 _ Hq) as Hf1.
  set (wa := mkWorld (GpuMinerProcess.set_nonces (Some n1) (Some sn1) (self w)) _ _) in Hf1.
  destruct (do_pow_installed solve solver j1 wa rq Hrq) as [w1 Hp1].
  simpl in Hp1. rewrite Hpow in Hp1.
  pose proof (do_pow_frame solve _ _ _ _ _ Hp1) as (Htr1 & [c1 Hs1] & Hfr1 & _).
  simpl in Htr1, Hs1, Hfr1.
  assert (Hq1 : q_items work_queue (mgr w1)
                = MiningContext (Some j2) (Some n2) (Some sn2) :: rest).
  { rewrite Hfr1 by (rewrite Hrq; congruence). apply q_items_store_same. }
  assert (Hb1 : GpuMinerProcess.loop_body solve work_queue solver job w
                = (Ok (GpuMinerProcess.pow_solver (solve solver j1 (Some n1) (Some sn1)),
                       Some j1), w1)).
  { unfold GpuMinerProcess.loop_body.
    erewrite bind_ok by exact Hf1. cbv beta iota.
    erewrite bind_ok by exact Hp1. reflexivity. }
  assert (Ht1 : trace w1 = trace w ++
       [EvLog INFO (MsgReceivedJob (job_id j1) (hexlify_bytes n1) (hexlify_bytes sn1));
        EvDoPow j1 (Some n1) (Some sn1)]).
  { rewrite Htr1, <- app_assoc. reflexivity. }
  split.
  { eexists. exists w1. split; [exact Hb1|]. split; [exact Ht1|exact Hq1]. }
  (* second pass *)
  pose proof (fetch_received work_queue (Some j1) w1 j2 n2 sn2 _ Hq1) as Hf2.
  set (wb := mkWorld (GpuMinerProcess.set_nonces (Some n2) (Some sn2) (self w1)) _ _) in Hf2.
  intros w2'. subst w2'. cbn [GpuMinerProcess.loop].
  erewrite bind_ok by exact Hb1. cbn [fst snd].
  destruct (GpuMinerProcess.loop_body solve work_queue
              (GpuMinerProcess.pow_solver (solve solver j1 (Some n1) (Some sn1)))
              (Some j1) w1) as [r2 w2] eqn:Hb2.
  assert (Hfin : trace w2 = trace w ++
               [EvLog INFO (MsgReceivedJob (job_id j1) (hexlify_bytes n1) (hexlify_bytes sn1));
                EvDoPow j1 (Some n1) (Some sn1);
                EvLog INFO (MsgReceivedJob (job_id j2) (hexlify_bytes n2) (hexlify_bytes sn2));
                EvDoPow j2 (Some n2) (Some sn2)] /\
             q_items work_queue (mgr w2) = rest).
  { unfold GpuMinerProcess.loop_body in Hb2.
    erewrite bind_ok in Hb2 by exact Hf2. cbv beta iota in Hb2.
    unfold bind at 1 in Hb2.
    destruct (GpuMinerProcess.do_pow solve
                (GpuMinerProcess.pow_solver (solve solver j1 (Some n1) (Some sn1))) j2 wb)
      as [r3 w3] eqn:Hp2.
    pose proof (do_pow_frame solve _ _ _ _ _ Hp2) as (Htr2 & _ & Hfr2 & _).
    simpl in Htr2, Hfr2.
    assert (w2 = w3) as -> by (destruct r3; unfold ret in Hb2; congruence).
    split.
    - rewrite Htr2, Ht1, <- !app_assoc. reflexivity.
    - rewrite Hfr2.
      + apply q_items_store_same.
      + rewrite Hs1. simpl. rewrite Hrq. congruence. }
  unfold bind. rewrite Hb2. destruct r2; exact Hfin.
Qed.

End WorkerLoopClaims.

(** ** The process entry point *)

Section Supervisor.
Context {Solver : Type}.
Variable solve : Solver -> Job -> option bytes -> option bytes -> GpuMinerProcess.pow_result Solver.
Local Abbreviation worker := (GpuMinerProcess.t Solver).

(** [while True] has no [break]: the loop, hence [run], never returns
    normally. *)
Lemma loop_never_returns fuel : forall wq solver job (w w' : World worker),
  GpuMinerProcess.loop solve fuel wq solver job w <> (Ok tt, w').
Proof.
  induction fuel as [|fuel IH]; intros wq solver job w w'; simpl.
  - unfold pending. discriminate.
  - unfold bind.
    destruct (GpuMinerProcess.loop_body solve wq solver job w) as [[st| |] w1];
      try discriminate. apply IH.
Qed.

Lemma run_never_returns fuel rq wq (w w' : World worker) :
  GpuMinerProcess.run solve fuel rq wq w <> (Ok tt, w').
Proof.
  unfold GpuMinerProcess.run, bind.
  destruct (GpuMinerProcess.run_setup rq w) as [[solver| |] w1]; try discriminate.
  apply loop_never_returns.
Qed.

(** C8, as the code has it.  [run] is entered once, on the freshly
    built worker.  When it raises an exception that derives from
    [Exception], the entry point returns normally: it has added one
    log record, at level ERROR, carrying "FATAL:", the exception and
    the stack trace, and has done nothing else, in particular it has
    not run the worker again.  An exception that derives from
    [BaseException] only is not caught: it reaches the caller and
    nothing is logged. *)
Theorem run_miner_process_contains_Exception
    fuel verbose sn gpu cls rq wq m tr e (w' : World worker) :
  GpuMinerProcess.run solve fuel rq wq
    (mkWorld (GpuMinerProcess.__init__ sn gpu cls verbose) m
             (tr ++ [EvLog DEBUG MsgInstantiatedMinerProcess])) = (Raise e, w') ->
  (is_Exception e = true ->
   run_miner_process solve fuel verbose sn gpu cls rq wq m tr =
   (Ok tt, mkWorld (self w') (mgr w') (trace w' ++ [EvLog ERROR (MsgFATAL e true)]))) /\
  (is_Exception e = false ->
   run_miner_process solve fuel verbose sn gpu cls rq wq m tr = (Raise e, w')).
Proof.
  intros Hrun.
  assert (Hbody : (log DEBUG MsgInstantiatedMinerProcess ;;
                   GpuMinerProcess.run solve fuel rq wq)
                    (mkWorld (GpuMinerProcess.__init__ sn gpu cls verbose) m tr)
                  = (Raise e, w')) by (rewrite <- Hrun; reflexivity).
  unfold run_miner_process, try_except. rewrite Hbody.
  split; intros ->; reflexivity.
Qed.

(** Whatever happens, no exception deriving from [Exception] leaves
    the entry point. *)
Lemma run_miner_process_never_raises_Exception
    fuel verbose sn gpu cls rq wq m tr e (w' : World worker) :
  run_miner_process solve fuel verbose sn gpu cls rq wq m tr = (Raise e, w') ->
  is_Exception e = false.
Proof.
  unfold run_miner_process, try_except.
  destruct (bind _ _ _) as [[[]|e0|] w1]; try discriminate.
  destruct (is_Exception e0) eqn:He; unfold log, emit; intros H; inversion H; subst.
  exact He.
Qed.

(** A solver that cannot be built: the failure is logged and the
    process function returns, the queues untouched. *)
Lemma run_miner_process_solver_construction_failure
    fuel verbose sn gpu cls rq wq m tr e :
  cls gpu verbose = inl e ->
  is_Exception e = true ->
  run_miner_process solve fuel verbose sn gpu cls rq wq m tr =
  (Ok tt, mkWorld (GpuMinerProcess.__init__ sn gpu cls verbose) m
            (tr ++ [EvLog DEBUG MsgInstantiatedMinerProcess;
                    EvLog DEBUG (MsgInstantiating verbose);
                    EvSolverInit gpu verbose;
                    EvLog ERROR (MsgFATAL e true)])).
Proof.
  intros Hcls He.
  unfold run_miner_process, try_except, GpuMinerProcess.run, GpuMinerProcess.run_setup,
         GpuMinerProcess.construct_solver.
  py_unfold. simpl. rewrite Hcls. simpl. rewrite He. simpl.
  now rewrite <- !app_assoc.
Qed.

End Supervisor.

(** ** The frontend *)

Section Frontend.
Context {SolverClass : Type}.
Local Abbreviation miner := (GpuMiner.t SolverClass).
Implicit Types (w : World miner).

(** C3.  [_enqueue_last_mining_job] changes nothing at all while the
    last received job or nonce1 is unset; with both set it returns
    after appending exactly one item to the work queue, the triple
    (last_received_job, nonce1, solver_nonce), and one log record. *)
Theorem enqueue_last_mining_job_only_when_ready w :
  (GpuMiner.last_received_job (self w) = None \/ GpuMiner.nonce1 (self w) = None ->
   GpuMiner._enqueue_last_mining_job w = (Ok tt, w)) /\
  (forall j n1,
   GpuMiner.last_received_job (self w) = Some j ->
   GpuMiner.nonce1 (self w) = Some n1 ->
   GpuMiner._enqueue_last_mining_job w =
   (Ok tt,
    mkWorld (self w)
      (q_store (GpuMiner.work_queue (self w))
         (q_items (GpuMiner.work_queue (self w)) (mgr w) ++
          [MiningContext (Some j) (Some n1) (GpuMiner.solver_nonce (self w))])
         (mgr w))
      (trace w ++ [EvLog INFO (MsgQueueingNewJob (job_id j))]))).
Proof.
  unfold GpuMiner._enqueue_last_mining_job. py_unfold. simpl. split.
  - intros [H | H]; rewrite H; [reflexivity|].
    now destruct (GpuMiner.last_received_job (self w)).
  - intros j n1 Hj Hn. rewrite Hj, Hn. reflexivity.
Qed.

(** C6.  On a frontend that has neither job nor nonce1 yet,
    [register_new_job] then [set_nonce1] and [set_nonce1] then
    [register_new_job] end in the same world: in both orders exactly
    one item has been appended to the work queue, the complete context
    (J, N, solver_nonce). *)
Theorem first_context_enqueued_once_in_either_order w (J : Job) (cb : option callback) (N : bytes) :
  GpuMiner.last_received_job (self w) = None ->
  GpuMiner.nonce1 (self w) = None ->
  exists w',
    (GpuMiner.register_new_job (Some J) cb ;; GpuMiner.set_nonce1 (Some N)) w = (Ok tt, w') /\
    (GpuMiner.set_nonce1 (Some N) ;; GpuMiner.register_new_job (Some J) cb) w = (Ok tt, w') /\
    q_items (GpuMiner.work_queue (self w)) (mgr w') =
    q_items (GpuMiner.work_queue (self w)) (mgr w) ++
    [MiningContext (Some J) (Some N) (GpuMiner.solver_nonce (self w))] /\
    forall q, q <> GpuMiner.work_queue (self w) -> q_items q (mgr w') = q_items q (mgr w).
Proof.
  intros Hj Hn.
  unfold GpuMiner.register_new_job, GpuMiner.set_nonce1, GpuMiner._enqueue_last_mining_job,
         GpuMiner.base_register_new_job, GpuMiner.base_set_nonce1.
  py_unfold. simpl. rewrite Hj, Hn. simpl.
  eexists. split; [reflexivity|]. split; [reflexivity|]. simpl. split.
  - apply q_items_store_same.
  - intros q Hne. now apply q_items_store_other.
Qed.

(** The frontend loop never changes the frontend object. *)
Lemma frontend_loop_body_self w r w' :
  GpuMiner.loop_body w = (r, w') -> self w' = self w.
Proof.
  unfold GpuMiner.loop_body, GpuMiner.unpack4, GpuMiner.count_solutions,
         GpuMiner.submit_solution.
  py_unfold. simpl.
  destruct (GpuMiner._stop (self w)); [intros H; now inversion H|].
  destruct (q_items _ _) as [|[oj on1 osn|j n2 sol c] rest]; simpl;
    intros H; now inversion H.
Qed.

Lemma frontend_loop_exit fuel : forall w w',
  GpuMiner.loop fuel w = (Ok tt, w') -> GpuMiner._stop (self w') = true.
Proof.
  induction fuel as [|fuel IH]; intros w w'; simpl.
  - unfold pending. discriminate.
  - unfold bind at 1.
    destruct (GpuMiner.loop_body w) as [[[|]| |] w1] eqn:Hb; try discriminate.
    + apply IH.
    + unfold ret. intros H. inversion H; subst.
      pose proof (frontend_loop_body_self _ _ _ Hb) as Hs. rewrite Hs.
      unfold GpuMiner.loop_body in Hb. py_unfold. simpl in Hb.
      destruct (GpuMiner._stop (self w)); [reflexivity|].
      destruct (q_items _ _) as [|[oj on1 osn|j n2 sol c] rest]; simpl in Hb; discriminate.
Qed.

(** C9.  A pass of the frontend loop made while the stop flag is not
    set and a Solution Message heads the result queue takes that
    message off the queue, then logs, calls the accounting callback
    once with the message's counter, then forwards (job, nonce2,
    solution) once, and goes on to the next test of the flag.  The
    loop is left exactly when the test finds the flag set, before any
    receive: nothing is taken from the queue then; so whenever [loop]
    has returned the flag is set. *)
Theorem frontend_pass_counts_then_forwards w :
  (forall j n2 sol counted rest,
   GpuMiner._stop (self w) = false ->
   q_items (GpuMiner.result_queue (self w)) (mgr w) = SolutionMessage j n2 sol counted :: rest ->
   GpuMiner.loop_body w =
   (Ok true,
    mkWorld (self w) (q_store (GpuMiner.result_queue (self w)) rest (mgr w))
      (trace w ++ [EvLog DEBUG MsgReceivedSolution; EvCounter counted; EvShare j n2 sol]))) /\
  (GpuMiner._stop (self w) = true -> GpuMiner.loop_body w = (Ok false, w)) /\
  (forall w', GpuMiner.loop_body w = (Ok false, w') -> GpuMiner._stop (self w) = true) /\
  (forall fuel w', GpuMiner.loop fuel w = (Ok tt, w') -> GpuMiner._stop (self w') = true).
Proof.
  split; [|split; [|split]].
  - intros j n2 sol counted rest Hstop Hq.
    unfold GpuMiner.loop_body, GpuMiner.unpack4, GpuMiner.count_solutions,
           GpuMiner.submit_solution.
    py_unfold. simpl. rewrite Hstop, Hq. simpl. now rewrite <- !app_assoc.
  - intros Hstop. unfold GpuMiner.loop_body. py_unfold. simpl. now rewrite Hstop.
  - intros w'. unfold GpuMiner.loop_body, GpuMiner.unpack4. py_unfold. simpl.
    destruct (GpuMiner._stop (self w)); [reflexivity|].
    destruct (q_items _ _) as [|[oj on1 osn|j n2 sol c] rest]; simpl; discriminate.
  - intros fuel w'. apply frontend_loop_exit.
Qed.

End Frontend.

(** ** The claims on concrete runs *)

Lemma submit_solution_carries_attempts_since_last_witness :
  GpuMinerProcess.result_queue (self w_full) = Some ResultQ /\
  exists w1 w2,
    GpuMinerProcess.submit_solution J1 [x01] [x02] w_full = (Ok tt, w1) /\
    GpuMinerProcess.solution_count (self w1) = 0 /\
    (count_all [3; 4; 5] ;; GpuMinerProcess.submit_solution J1 [x09] [x0a]) w1 = (Ok tt, w2) /\
    q_items ResultQ (mgr w2) =
      q_items ResultQ (mgr w1) ++ [SolutionMessage J1 [x09] [x0a] (total [3; 4; 5])] /\
    GpuMinerProcess.solution_count (self w2) = 0.
Proof.
  split; [reflexivity|].
  apply (submit_solution_carries_attempts_since_last
           w_full ResultQ J1 J1 [x01] [x02] [x09] [x0a] [3; 4; 5]).
  reflexivity.
Defined.

(** The same on the queue itself: 7 attempts go with the first
    message, 12 with the second. *)
Example two_submissions_share_no_attempt :
  q_items ResultQ
    (mgr (snd ((GpuMinerProcess.submit_solution J1 [x01] [x02] ;;
                count_all [3; 4; 5] ;;
                GpuMinerProcess.submit_solution J1 [x09] [x0a]) w_full))) =
  [SolutionMessage J1 [x01] [x02] 7; SolutionMessage J1 [x09] [x0a] 12].
Proof. reflexivity. Qed.

Lemma submit_solution_needs_result_queue_witness :
  GpuMinerProcess.submit_solution J1 [x09] [x0a] w_not_started
    = (Raise AssertionError, w_not_started) /\
  (exists w', GpuMinerProcess.submit_solution J1 [x09] [x0a] w_full = (Ok tt, w') /\
              q_items ResultQ (mgr w') = [SolutionMessage J1 [x09] [x0a] 7]) /\
  GpuMinerProcess.result_queue
    (self (snd (GpuMinerProcess.run_setup ResultQ w_not_started))) = Some ResultQ.
Proof.
  split; [|split].
  - apply (proj1 (submit_solution_needs_result_queue w_not_started J1 [x09] [x0a])).
    reflexivity.
  - apply (proj1 (proj2 (submit_solution_needs_result_queue w_full J1 [x09] [x0a])) ResultQ).
    reflexivity.
  - apply (proj2 (proj2 (submit_solution_needs_result_queue w_not_started J1 [x09] [x0a]))
             ResultQ []).
    reflexivity.
Defined.

Lemma incomplete_context_sleeps_and_retries_witness :
  q_items WorkQ (mgr w_waiting) = [] /\
  GpuMinerProcess.loop_body scripted_solve WorkQ [] (Some J1) w_waiting =
  (Ok ([], Some J1),
   mkWorld (self w_waiting) (mgr w_waiting)
     [EvLog DEBUG MsgNoNonce1Waiting; EvSleep 2; EvPrint "."]).
Proof.
  split; [reflexivity|].
  apply (incomplete_context_sleeps_and_retries
           scripted_solve WorkQ [] (Some J1) w_waiting 0 eq_refl (or_intror eq_refl)).
Defined.

Lemma full_context_never_idles_again_witness :
  full_context (Some J1) (self w_full) = true /\
  full_context (Some J1)
    (self (snd (GpuMinerProcess.loop_body scripted_solve WorkQ [] (Some J1) w_full))) = true.
Proof.
  split; [reflexivity|].
  apply (full_context_never_idles_again scripted_solve WorkQ
           [] (Some J1) w_full
           [] (Some J1) (snd (GpuMinerProcess.loop_body scripted_solve WorkQ [] (Some J1) w_full))).
  - reflexivity.
  - eapply steps_snoc; [apply steps_refl|].
    apply step_pass. reflexivity.
Defined.

(** C2 fails on the code: after two enqueues and no poll, the first
    pass of a newly started worker receives the earlier context and
    solves on it; the later one is still waiting. *)
Lemma earlier_context_is_received_first :
  q_items WorkQ (mgr frontend_after_two_enqueues) = [ctx1; ctx2] /\
  trace (snd (run_miner_process scripted_solve 1 false (Some SN) (0, 0) (scripted_class [])
                ResultQ WorkQ (mgr frontend_after_two_enqueues) [])) =
  [EvLog DEBUG MsgInstantiatedMinerProcess;
   EvLog DEBUG (MsgInstantiating false);
   EvSolverInit (0, 0) false;
   EvLog DEBUG (MsgInstantiated false);
   EvLog INFO (MsgReceivedJob "1a" [x61; x62; x63; x64] [x30; x30; x30; x37]);
   EvDoPow J1 (Some N1) (Some SN)] /\
  q_items WorkQ
    (mgr (snd (run_miner_process scripted_solve 1 false (Some SN) (0, 0) (scripted_class [])
                 ResultQ WorkQ (mgr frontend_after_two_enqueues) []))) = [ctx2].
Proof. repeat split. Qed.

(** C7 fails on the code: a context in which only the solver nonce
    is absent does not idle the worker.  The frontend sends it, since
    its guard does not look at the solver nonce; the worker takes it,
    so that it holds a job and a nonce1 and no solver nonce; and its
    pass then ends the loop instead of sleeping: the process function
    returns without a single sleep in the trace. *)
Lemma context_without_solver_nonce_stops_the_worker :
  q_items WorkQ (mgr frontend_after_enqueue_no_solver_nonce) =
    [MiningContext (Some J1) (Some N1) None] /\
  run_miner_process scripted_solve 3 false None (0, 0) (scripted_class [])
    ResultQ WorkQ (mgr frontend_after_enqueue_no_solver_nonce) [] =
  (Ok tt,
   mkWorld (GpuMinerProcess.mk (scripted_class []) 0 (0, 0) (Some ResultQ) (Some N1) None false)
     no_queues
     [EvLog DEBUG MsgInstantiatedMinerProcess;
      EvLog DEBUG (MsgInstantiating false);
      EvSolverInit (0, 0) false;
      EvLog DEBUG (MsgInstantiated false);
      EvLog ERROR (MsgFATAL TypeError true)]) /\
  existsb is_sleep
    (trace (snd (run_miner_process scripted_solve 3 false None (0, 0) (scripted_class [])
                   ResultQ WorkQ (mgr frontend_after_enqueue_no_solver_nonce) []))) = false.
Proof. repeat split. Qed.

Lemma run_miner_process_contains_Exception_witness :
  run_miner_process scripted_solve 1 false (Some SN) (0, 0)
    (failing_class (SolverError "no device")) ResultQ WorkQ no_queues [] =
  (Ok tt,
   mkWorld (GpuMinerProcess.__init__ (Some SN) (0, 0)
              (failing_class (SolverError "no device")) false)
     no_queues
     [EvLog DEBUG MsgInstantiatedMinerProcess;
      EvLog DEBUG (MsgInstantiating false);
      EvSolverInit (0, 0) false;
      EvLog ERROR (MsgFATAL (SolverError "no device") true)]).
Proof.
  apply (proj1 (run_miner_process_contains_Exception scripted_solve
                  1 false (Some SN) (0, 0) (failing_class (SolverError "no device"))
                  ResultQ WorkQ no_queues [] (SolverError "no device")
                  (snd (GpuMinerProcess.run scripted_solve 1 ResultQ WorkQ
                          (mkWorld (GpuMinerProcess.__init__ (Some SN) (0, 0)
                                      (failing_class (SolverError "no device")) false)
                                   no_queues
                                   [EvLog DEBUG MsgInstantiatedMinerProcess])))
                  eq_refl)).
  reflexivity.
Defined.

(** C8 fails on the code twice.  A [KeyboardInterrupt] raised while
    solving is not an [Exception]: it leaves [run_miner_process] and
    nothing is logged.  And what is caught is logged at level ERROR,
    which is below the level the [logging] module calls FATAL. *)
Lemma KeyboardInterrupt_leaves_run_miner_process :
  run_miner_process scripted_solve 1 false (Some SN) (0, 0)
    (scripted_class [([], Some KeyboardInterrupt)]) ResultQ WorkQ (mkManager [ctx1] []) [] =
  (Raise KeyboardInterrupt,
   mkWorld (GpuMinerProcess.mk (scripted_class [([], Some KeyboardInterrupt)]) 0 (0, 0)
              (Some ResultQ) (Some N1) (Some SN) false)
     no_queues
     [EvLog DEBUG MsgInstantiatedMinerProcess;
      EvLog DEBUG (MsgInstantiating false);
      EvSolverInit (0, 0) false;
      EvLog DEBUG (MsgInstantiated false);
      EvLog INFO (MsgReceivedJob "1a" [x61; x62; x63; x64] [x30; x30; x30; x37]);
      EvDoPow J1 (Some N1) (Some SN)]) /\
  trace (snd (run_miner_process scripted_solve 1 false (Some SN) (0, 0)
                (failing_class (SolverError "no device")) ResultQ WorkQ no_queues [])) =
  [EvLog DEBUG MsgInstantiatedMinerProcess;
   EvLog DEBUG (MsgInstantiating false);
   EvSolverInit (0, 0) false;
   EvLog ERROR (MsgFATAL (SolverError "no device") true)] /\
  levelno ERROR < levelno CRITICAL.
Proof. repeat split. Qed.

Lemma enqueue_last_mining_job_only_when_ready_witness :
  GpuMiner._enqueue_last_mining_job fresh_frontend = (Ok tt, fresh_frontend) /\
  GpuMiner._enqueue_last_mining_job frontend_after_two_enqueues =
  (Ok tt,
   mkWorld (self frontend_after_two_enqueues)
     (mkManager [ctx1; ctx2; ctx2] [])
     (trace frontend_after_two_enqueues ++ [EvLog INFO (MsgQueueingNewJob "1b")])).
Proof.
  split.
  - apply (proj1 (enqueue_last_mining_job_only_when_ready fresh_frontend)).
    left. reflexivity.
  - apply (proj2 (enqueue_last_mining_job_only_when_ready frontend_after_two_enqueues)
             J2 N1); reflexivity.
Defined.

(** The two scenarios of the spec's test list, registered alone: no
    item on the work queue. *)
Example one_call_alone_enqueues_nothing :
  mgr (snd (GpuMiner.set_nonce1 (Some N1) fresh_frontend)) = no_queues /\
  mgr (snd (GpuMiner.register_new_job (Some J1) (Some "on_share"%string) fresh_frontend))
    = no_queues.
Proof. split; reflexivity. Qed.

Lemma first_context_enqueued_once_in_either_order_witness :
  GpuMiner.last_received_job (self fresh_frontend) = None /\
  GpuMiner.nonce1 (self fresh_frontend) = None /\
  exists w',
    (GpuMiner.register_new_job (Some J1) (Some "on_share"%string) ;;
     GpuMiner.set_nonce1 (Some N1)) fresh_frontend = (Ok tt, w') /\
    (GpuMiner.set_nonce1 (Some N1) ;;
     GpuMiner.register_new_job (Some J1) (Some "on_share"%string)) fresh_frontend = (Ok tt, w') /\
    q_items WorkQ (mgr w') = [] ++ [MiningContext (Some J1) (Some N1) (Some SN)] /\
    forall q, q <> WorkQ -> q_items q (mgr w') = q_items q (mgr fresh_frontend).
Proof.
  split; [reflexivity|]. split; [reflexivity|].
  apply (first_context_enqueued_once_in_either_order
           fresh_frontend J1 (Some "on_share"%string) N1); reflexivity.
Defined.

Lemma frontend_pass_counts_then_forwards_witness :
  GpuMiner._stop (self frontend_with_result) = false /\
  GpuMiner.loop_body frontend_with_result =
  (Ok true,
   mkWorld (self frontend_with_result) no_queues
     [EvLog DEBUG MsgReceivedSolution; EvCounter 12; EvShare J1 [x09] [x0a; x0b]]).
Proof.
  split; [reflexivity|].
  apply (proj1 (frontend_pass_counts_then_forwards frontend_with_result)
           J1 [x09] [x0a; x0b] 12 []); reflexivity.
Defined.

(** With the flag set the loop is left at once and the waiting
    solution stays where it is. *)
Example stopped_frontend_receives_nothing :
  GpuMiner.run 5
    (mkWorld (GpuMiner.with_stop true (self frontend_with_result))
             (mgr frontend_with_result) []) =
  (Ok tt,
   mkWorld (GpuMiner.with_stop true (self frontend_with_result))
     (mgr frontend_with_result)
     [EvLog DEBUG MsgStartingBackend; EvSpawnWorker (Some SN) (0, 0) ResultQ WorkQ]).
Proof. reflexivity. Qed.

(** * Further properties of the module *)

(** ** Attempts are neither lost nor counted twice *)

Section Accounting.
Context {Solver : Type}.
Local Abbreviation worker := (GpuMinerProcess.t Solver).

Lemma sum_counted_app l l' : sum_counted (l ++ l') = sum_counted l + sum_counted l'.
Proof.
  unfold sum_counted. induction l as [|it l IH]; simpl; [reflexivity|].
  rewrite IH. lia.
Qed.

Lemma counter_total_app tr tr' :
  counter_total (tr ++ tr') = counter_total tr + counter_total tr'.
Proof.
  induction tr as [|ev tr IH]; simpl; [reflexivity|].
  destruct ev; rewrite ?IH; lia.
Qed.

Lemma counter_total_solution_events msgs :
  counter_total (flat_map solution_events msgs) = sum_counted msgs.
Proof.
  unfold sum_counted. induction msgs as [|it msgs IH]; simpl; [reflexivity|].
  rewrite counter_total_app, IH. destruct it; simpl; lia.
Qed.

(** Any run of [count_solutions] and [submit_solution] calls on a
    worker whose result queue is installed. *)
Lemma do_calls_installed job calls : forall (w : World worker) q,
  GpuMinerProcess.result_queue (self w) = Some q ->
  exists c new,
    GpuMinerProcess.do_calls job calls w =
    (Ok tt, mkWorld (GpuMinerProcess.set_solution_count c (self w))
                    (q_store q (q_items q (mgr w) ++ new) (mgr w)) (trace w)) /\
    List.length new = submissions calls /\
    Forall (solution_for job) new /\
    sum_counted new + c = GpuMinerProcess.solution_count (self w) + calls_total calls /\
    (0 <= GpuMinerProcess.solution_count (self w) -> counts_nonneg calls ->
     0 <= c /\ Forall (fun it => 0 <= counted_of it) new).
Proof.
  induction calls as [|[n|n2 sol] calls IH]; intros w q Hq; simpl.
  - exists (GpuMinerProcess.solution_count (self w)), []. split; [|repeat split].
    + unfold ret. rewrite app_nil_r. destruct w as [s m tr]; simpl.
      destruct s; simpl in *. destruct q, m; reflexivity.
    + constructor.
    + simpl. lia.
    + assumption.
    + constructor.
  - erewrite bind_ok by apply count_solutions_run.
    destruct (IH (mkWorld (GpuMinerProcess.set_solution_count
                             (GpuMinerProcess.solution_count (self w) + n) (self w))
                          (mgr w) (trace w)) q Hq)
      as (c & new & Hrun & Hlen & Hfor & Hsum & Hpos).
    exists c, new. simpl in *. repeat split; try assumption.
    + lia.
    + apply Hpos; [inversion H0; subst; lia|inversion H0; assumption].
    + apply Hpos; [inversion H0; subst; lia|inversion H0; assumption].
  - erewrite bind_ok by (apply submit_solution_installed; exact Hq).
    match goal with
    | |- context [GpuMinerProcess.do_calls job calls ?w1] =>
        destruct (IH w1 q Hq) as (c & new & Hrun & Hlen & Hfor & Hsum & Hpos)
    end.
    exists c, (SolutionMessage job n2 sol (GpuMinerProcess.solution_count (self w)) :: new).
    simpl in *. rewrite q_items_store_same in Hrun. split; [|repeat split].
    + rewrite Hrun. f_equal. f_equal.
      rewrite <- app_assoc. simpl. destruct q, (mgr w); reflexivity.
    + now rewrite Hlen.
    + constructor; [|assumption]. unfold solution_for. eauto.
    + unfold sum_counted in *. simpl. lia.
    + apply Hpos; [lia|inversion H0; assumption].
    + constructor; [simpl; assumption|].
      apply Hpos; [lia|inversion H0; assumption].
Qed.

(** X1.  Whatever [count_solutions] and [submit_solution] calls are
    made on a worker whose result queue is installed, all return; the
    result queue grows by one Solution Message per submission, each
    for the job given; and the attempts carried by the new messages
    plus the attempts left in the counter are exactly the attempts
    that were in the counter plus those counted: none is lost, none
    is carried twice. *)
Theorem attempts_are_conserved (w : World worker) q job calls :
  GpuMinerProcess.result_queue (self w) = Some q ->
  exists w' new,
    GpuMinerProcess.do_calls job calls w = (Ok tt, w') /\
    q_items q (mgr w') = q_items q (mgr w) ++ new /\
    List.length new = submissions calls /\
    Forall (solution_for job) new /\
    sum_counted new + GpuMinerProcess.solution_count (self w') =
    GpuMinerProcess.solution_count (self w) + calls_total calls.
Proof.
  intros Hq.
  destruct (do_calls_installed job calls w q Hq) as (c & new & Hrun & Hlen & Hfor & Hsum & _).
  eexists. exists new. split; [exact Hrun|]. simpl.
  rewrite q_items_store_same. repeat split; assumption.
Qed.

(** X2.  When the counter is not negative and no negative count is
    reported, no Solution Message carries a negative number of
    attempts and the counter is never left negative. *)
Theorem attempts_stay_nonnegative (w : World worker) q job calls :
  GpuMinerProcess.result_queue (self w) = Some q ->
  0 <= GpuMinerProcess.solution_count (self w) ->
  counts_nonneg calls ->
  exists w' new,
    GpuMinerProcess.do_calls job calls w = (Ok tt, w') /\
    q_items q (mgr w') = q_items q (mgr w) ++ new /\
    Forall (fun it => 0 <= counted_of it) new /\
    0 <= GpuMinerProcess.solution_count (self w').
Proof.
  intros Hq H0 Hnn.
  destruct (do_calls_installed job calls w q Hq) as (c & new & Hrun & _ & _ & _ & Hpos).
  destruct (Hpos H0 Hnn) as (Hc & Hnew).
  eexists. exists new. split; [exact Hrun|]. simpl.
  rewrite q_items_store_same. repeat split; assumption.
Qed.

End Accounting.

(** ** More on the backend loop *)

Section WorkerRuns.
Context {Solver : Type}.
Variable solve : Solver -> Job -> option bytes -> option bytes -> GpuMinerProcess.pow_result Solver.
Variable work_queue : qref.
Local Abbreviation worker := (GpuMinerProcess.t Solver).
Implicit Types (w : World worker) (job : option Job) (solver : Solver).

Lemma loop_without_job fuel : forall solver w,
  q_items work_queue (mgr w) = [] ->
  GpuMinerProcess.loop solve fuel work_queue solver None w =
  (Pending, mkWorld (self w) (mgr w) (trace w ++ List.concat (repeat idle_events fuel))).
Proof.
  induction fuel as [|fuel IH]; intros solver w Hq.
  - simpl. unfold pending. rewrite app_nil_r. now destruct w.
  - cbn [GpuMinerProcess.loop].
    erewrite bind_ok by (apply loop_body_idle; [exact Hq|left; reflexivity]).
    cbn [fst snd]. rewrite IH by exact Hq.
    cbn [self mgr trace repeat List.concat]. now rewrite <- app_assoc.
Qed.

(** X3.  A worker whose solver can be built and whose work queue is
    and stays empty never calls [do_pow], whatever nonce1 it holds:
    after any number of passes [run] is still looping, it has slept 2
    once per pass, and apart from the installed result queue and the
    trace nothing has changed. *)
Theorem run_on_empty_queue_only_sleeps fuel rq w solver0 :
  GpuMinerProcess.solver_class (self w) (GpuMinerProcess.gpu_id (self w))
    (GpuMinerProcess.verbose (self w)) = inr solver0 ->
  q_items work_queue (mgr w) = [] ->
  GpuMinerProcess.run solve fuel rq work_queue w =
  (Pending,
   mkWorld (GpuMinerProcess.set_result_queue (Some rq) (self w)) (mgr w)
     (trace w ++
      setup_events (GpuMinerProcess.gpu_id (self w)) (GpuMinerProcess.verbose (self w)) ++
      List.concat (repeat idle_events fuel))).
Proof.
  intros Hcls Hq.
  assert (Hsetup : GpuMinerProcess.run_setup rq w =
            (Ok solver0,
             mkWorld (GpuMinerProcess.set_result_queue (Some rq) (self w)) (mgr w)
               (trace w ++ setup_events (GpuMinerProcess.gpu_id (self w))
                                        (GpuMinerProcess.verbose (self w))))).
  { unfold GpuMinerProcess.run_setup, GpuMinerProcess.construct_solver, setup_events.
    py_unfold. simpl. rewrite Hcls. simpl. now rewrite <- !app_assoc. }
  unfold GpuMinerProcess.run. erewrite bind_ok by exact Hsetup.
  rewrite loop_without_job by exact Hq.
  cbn [self mgr trace]. now rewrite <- app_assoc.
Qed.

(** X4.  A context that arrives with a part missing is taken off the
    queue and its nonces are stored, but the pass then raises while it
    builds the log line, [AttributeError] for a missing job and
    [TypeError] for a missing nonce: nothing is logged, [do_pow] is
    not called and the worker does not sleep. *)
Theorem incomplete_received_context_raises solver job w oj on1 osn rest :
  q_items work_queue (mgr w) = MiningContext oj on1 osn :: rest ->
  oj = None \/ on1 = None \/ osn = None ->
  GpuMinerProcess.loop_body solve work_queue solver job w =
  (Raise (match oj with None => AttributeError | Some _ => TypeError end),
   mkWorld (GpuMinerProcess.set_nonces on1 osn (self w))
           (q_store work_queue rest (mgr w)) (trace w)).
Proof.
  intros Hq Hnone.
  unfold GpuMinerProcess.loop_body, GpuMinerProcess.fetch, GpuMinerProcess.unpack3.
  py_unfold. simpl. rewrite Hq. simpl.
  destruct oj as [j|]; [|reflexivity].
  destruct on1 as [n1|]; simpl; [|reflexivity].
  destruct osn as [sn|]; simpl; [|reflexivity].
  destruct Hnone as [H|[H|H]]; discriminate.
Qed.

(** A pass that receives a complete context. *)
Lemma loop_body_received solver job w j n1 sn rest r w' :
  q_items work_queue (mgr w) = MiningContext (Some j) (Some n1) (Some sn) :: rest ->
  GpuMinerProcess.loop_body solve work_queue solver job w = (r, w') ->
  trace w' = trace w ++
    [EvLog INFO (MsgReceivedJob (job_id j) (hexlify_bytes n1) (hexlify_bytes sn));
     EvDoPow j (Some n1) (Some sn)] /\
  (exists c, self w' = GpuMinerProcess.set_solution_count c
                         (GpuMinerProcess.set_nonces (Some n1) (Some sn) (self w))) /\
  (GpuMinerProcess.result_queue (self w) <> Some work_queue ->
   q_items work_queue (mgr w') = rest) /\
  (forall st, r = Ok st -> snd st = Some j).
Proof.
  intros Hq Hbody. unfold GpuMinerProcess.loop_body in Hbody.
  erewrite bind_ok in Hbody by (apply fetch_received; exact Hq). cbv beta iota in Hbody.
  unfold bind at 1 in Hbody.
  match type of Hbody with
  | context [GpuMinerProcess.do_pow solve solver j ?w0] =>
      destruct (GpuMinerProcess.do_pow solve solver j w0) as [r0 w2] eqn:Hp
  end.
  apply do_pow_frame in Hp. simpl in Hp. destruct Hp as (Htr & Hs & Hfr & _).
  assert (w' = w2) as -> by (destruct r0; unfold ret in Hbody; congruence).
  repeat split.
  - rewrite Htr, <- app_assoc. reflexivity.
  - exact Hs.
  - intros Hne. rewrite Hfr by exact Hne. apply q_items_store_same.
  - intros st ->. destruct r0; unfold ret in Hbody; inversion Hbody. reflexivity.
Qed.

(** X5.  A pass takes at most the head off the work queue and puts
    nothing on it, and it only appends to the result queue, Solution
    Messages: the two queues carry one direction each.  This holds
    however the pass ends, for a worker whose result queue is
    installed and is not the work queue. *)
Theorem pass_keeps_queue_directions solver job w rq r w' :
  GpuMinerProcess.result_queue (self w) = Some rq ->
  rq <> work_queue ->
  GpuMinerProcess.loop_body solve work_queue solver job w = (r, w') ->
  (q_items work_queue (mgr w') = q_items work_queue (mgr w) \/
   q_items work_queue (mgr w') = tl (q_items work_queue (mgr w))) /\
  exists new, q_items rq (mgr w') = q_items rq (mgr w) ++ new /\
              forallb is_solution new = true.
Proof.
  intros Hrq Hne Hbody. unfold GpuMinerProcess.loop_body in Hbody.
  unfold bind at 1 in Hbody.
  destruct (GpuMinerProcess.fetch work_queue job w) as [rf w1] eqn:Hf.
  assert (Hfetch :
    GpuMinerProcess.result_queue (self w1) = Some rq /\
    q_items rq (mgr w1) = q_items rq (mgr w) /\
    (q_items work_queue (mgr w1) = q_items work_queue (mgr w) \/
     q_items work_queue (mgr w1) = tl (q_items work_queue (mgr w)))).
  { unfold GpuMinerProcess.fetch, GpuMinerProcess.unpack3 in Hf. py_unfold. simpl in Hf.
    destruct (q_items work_queue (mgr w)) as [|it rest] eqn:Hq; simpl in Hf.
    - destruct job as [j|]; [destruct (GpuMinerProcess.nonce1 (self w))|];
        simpl in Hf; inversion Hf; subst; simpl; rewrite ?Hq; auto.
    - assert (Hrest : q_items rq (q_store work_queue rest (mgr w)) = q_items rq (mgr w))
        by (apply q_items_store_other; exact Hne).
      destruct it as [[j|] [n1|] [sn|]|j n2 sol c]; simpl in Hf; inversion Hf; subst; simpl;
        rewrite ?q_items_store_same; auto. }
  destruct Hfetch as (Hrq1 & Hres1 & Hwork1).
  destruct rf as [[|j]| |]; try (inversion Hbody; subst; split; [exact Hwork1|];
    exists []; rewrite app_nil_r; split; [exact Hres1|reflexivity]).
  unfold bind at 1 in Hbody.
  destruct (GpuMinerProcess.do_pow solve solver j w1) as [r0 w2] eqn:Hp.
  assert (w' = w2) as -> by (destruct r0; unfold ret in Hbody; congruence).
  pose proof (do_pow_frame solve _ _ _ _ _ Hp) as (_ & _ & Hfr & _).
  split.
  - rewrite Hfr by (rewrite Hrq1; congruence). exact Hwork1.
  - unfold GpuMinerProcess.do_pow in Hp. py_unfold. simpl in Hp.
    set (calls := GpuMinerProcess.pow_calls _) in Hp.
    match type of Hp with
    | context [GpuMinerProcess.do_calls j calls ?w0] =>
        destruct (do_calls_installed j calls w0 rq Hrq1)
          as (c & new & Hrun & _ & Hfor & _)
    end.
    rewrite Hrun in Hp. simpl in Hp.
    exists new. split.
    + destruct (GpuMinerProcess.pow_raises _); inversion Hp; subst; simpl;
        rewrite q_items_store_same, Hres1; reflexivity.
    + clear -Hfor. induction Hfor as [|it l (n2 & sol & c & ->) _ IH]; simpl; auto.
Qed.

(** X6.  A context received while another one is being solved
    replaces it for good: the pass that receives it solves on it, and
    so does the next pass when it finds the queue empty; the job and
    nonces held before are not used again. *)
Theorem received_context_replaces_current solver job w rq j n1 sn :
  q_items work_queue (mgr w) = [MiningContext (Some j) (Some n1) (Some sn)] ->
  GpuMinerProcess.result_queue (self w) = Some rq ->
  rq <> work_queue ->
  GpuMinerProcess.pow_raises (solve solver j (Some n1) (Some sn)) = None ->
  trace (snd (GpuMinerProcess.loop solve 2 work_queue solver job w)) =
  trace w ++
  [EvLog INFO (MsgReceivedJob (job_id j) (hexlify_bytes n1) (hexlify_bytes sn));
   EvDoPow j (Some n1) (Some sn);
   EvLog DEBUG MsgNoNewJob;
   EvDoPow j (Some n1) (Some sn)].
Proof.
  intros Hq Hrq Hne Hpow.
  pose proof (fetch_received work_queue job w j n1 sn _ Hq) as Hf1.
  set (wa := mkWorld (GpuMinerProcess.set_nonces (Some n1) (Some sn) (self w)) _ _) in Hf1.
  destruct (do_pow_installed solve solver j wa rq Hrq) as [w1 Hp1].
  simpl in Hp1. rewrite Hpow in Hp1.
  assert (Hb1 : GpuMinerProcess.loop_body solve work_queue solver job w
                = (Ok (GpuMinerProcess.pow_solver (solve solver j (Some n1) (Some sn)),
                       Some j), w1)).
  { unfold GpuMinerProcess.loop_body.
    erewrite bind_ok by exact Hf1. cbv beta iota.
    erewrite bind_ok by exact Hp1. reflexivity. }
  destruct (loop_body_received _ _ _ _ _ _ _ _ _ Hq Hb1) as (Ht1 & [c Hs1] & Hq1 & _).
  specialize (Hq1 ltac:(rewrite Hrq; congruence)).
  cbn [GpuMinerProcess.loop]. erewrite bind_ok by exact Hb1. cbn [fst snd].
  destruct (GpuMinerProcess.loop_body solve work_queue
              (GpuMinerProcess.pow_solver (solve solver j (Some n1) (Some sn)))
              (Some j) w1) as [r2 w2] eqn:Hb2.
  assert (Hn1 : GpuMinerProcess.nonce1 (self w1) = Some n1) by (rewrite Hs1; reflexivity).
  pose proof (loop_body_resolve solve work_queue _ _ _ _ _ _ Hq1 Hn1 Hb2) as Ht2.
  assert (Hsn : GpuMinerProcess.solver_nonce (self w1) = Some sn)
    by (rewrite Hs1; reflexivity).
  rewrite Hsn in Ht2.
  unfold bind. rewrite Hb2.
  assert (Hfin : trace w2 = trace w ++
            [EvLog INFO (MsgReceivedJob (job_id j) (hexlify_bytes n1) (hexlify_bytes sn));
             EvDoPow j (Some n1) (Some sn);
             EvLog DEBUG MsgNoNewJob;
             EvDoPow j (Some n1) (Some sn)])
    by (rewrite Ht2, Ht1, <- !app_assoc; reflexivity).
  destruct r2; exact Hfin.
Qed.

End WorkerRuns.

(** ** More on the process entry point *)

Section SupervisorRuns.
Context {Solver : Type}.
Variable solve : Solver -> Job -> option bytes -> option bytes -> GpuMinerProcess.pow_result Solver.
Local Abbreviation worker := (GpuMinerProcess.t Solver).

(** X7.  [run_miner_process] returns only after a failure and never
    silently: whenever it has returned, the last record of the trace
    is the ERROR record of an exception deriving from [Exception];
    and whenever it lets an exception through, that exception does
    not derive from [Exception]. *)
Theorem run_miner_process_endings
    fuel verbose sn gpu cls rq wq m tr r (w' : World worker) :
  run_miner_process solve fuel verbose sn gpu cls rq wq m tr = (r, w') ->
  (r = Ok tt ->
   exists e tr', is_Exception e = true /\
                 trace w' = tr' ++ [EvLog ERROR (MsgFATAL e true)]) /\
  (forall e, r = Raise e -> is_Exception e = false).
Proof.
  unfold run_miner_process, try_except. intros H.
  match type of H with
  | context [bind ?a ?b ?c] => destruct (bind a b c) as [r0 w0] eqn:Hbody
  end.
  destruct r0 as [[]|e0|].
  - exfalso. unfold bind at 1 in Hbody. unfold log, emit in Hbody. simpl in Hbody.
    exact (run_never_returns solve _ _ _ _ _ Hbody).
  - destruct (is_Exception e0) eqn:He.
    + unfold log, emit in H. inversion H; subst. split.
      * intros _. exists e0, (trace w0). split; [exact He|reflexivity].
      * intros e Habs. discriminate.
    + inversion H; subst. split; [discriminate|].
      intros e Heq. inversion Heq; subst. exact He.
  - inversion H; subst. split; [discriminate|]. intros e Heq. discriminate.
Qed.

(** X8.  When the solver cannot be built, [run] raises what the
    constructor raised before it touches anything: the result queue
    is not installed on the worker, no queue is read or written, and
    the trace only gains the record written before construction and
    the construction itself. *)
Theorem failed_construction_touches_nothing fuel rq wq (w : World worker) e :
  GpuMinerProcess.solver_class (self w) (GpuMinerProcess.gpu_id (self w))
    (GpuMinerProcess.verbose (self w)) = inl e ->
  GpuMinerProcess.run solve fuel rq wq w =
  (Raise e,
   mkWorld (self w) (mgr w)
     (trace w ++ [EvLog DEBUG (MsgInstantiating (GpuMinerProcess.verbose (self w)));
                  EvSolverInit (GpuMinerProcess.gpu_id (self w))
                               (GpuMinerProcess.verbose (self w))])).
Proof.
  intros Hcls.
  unfold GpuMinerProcess.run, GpuMinerProcess.run_setup, GpuMinerProcess.construct_solver.
  py_unfold. simpl. rewrite Hcls. simpl. now rewrite <- app_assoc.
Qed.

End SupervisorRuns.

(** ** More on the frontend *)

Section FrontendRuns.
Context {SolverClass : Type}.
Local Abbreviation miner := (GpuMiner.t SolverClass).
Implicit Types (w : World miner).

(** One notification, whatever it is. *)
Lemma front_call_run_spec c w :
  exists w' new,
    front_call_run c w = (Ok tt, w') /\
    mgr w' = q_store (GpuMiner.work_queue (self w))
               (q_items (GpuMiner.work_queue (self w)) (mgr w) ++ new) (mgr w) /\
    GpuMiner.work_queue (self w') = GpuMiner.work_queue (self w) /\
    GpuMiner.solver_nonce (self w') = GpuMiner.solver_nonce (self w) /\
    new = match GpuMiner.last_received_job (self w'), GpuMiner.nonce1 (self w') with
          | Some j, Some n1 =>
              [MiningContext (Some j) (Some n1) (GpuMiner.solver_nonce (self w'))]
          | _, _ => []
          end.
Proof.
  destruct w as [s m tr].
  assert (Hsame : m = q_store (GpuMiner.work_queue s)
                        (q_items (GpuMiner.work_queue s) m ++ []) m)
    by (rewrite app_nil_r; destruct (GpuMiner.work_queue s), m; reflexivity).
  destruct c as [n1|job cb]; simpl;
    unfold GpuMiner.set_nonce1, GpuMiner.register_new_job, GpuMiner._enqueue_last_mining_job,
           GpuMiner.base_set_nonce1, GpuMiner.base_register_new_job; py_unfold; simpl.
  - destruct (GpuMiner.last_received_job s) as [j|] eqn:Hj; [destruct n1 as [n1|]|].
    + eexists. exists [MiningContext (Some j) (Some n1) (GpuMiner.solver_nonce s)].
      split; [reflexivity|]. simpl. rewrite Hj. repeat split.
    + eexists. exists []. split; [reflexivity|]. simpl. rewrite Hj. repeat split.
      exact Hsame.
    + eexists. exists []. split; [reflexivity|]. simpl. rewrite Hj. repeat split.
      exact Hsame.
  - destruct job as [j|]; [destruct (GpuMiner.nonce1 s) as [n1|] eqn:Hn|].
    + eexists. exists [MiningContext (Some j) (Some n1) (GpuMiner.solver_nonce s)].
      split; [reflexivity|]. simpl. rewrite Hn. repeat split.
    + eexists. exists []. split; [reflexivity|]. simpl. rewrite Hn. repeat split.
      exact Hsame.
    + eexists. exists []. split; [reflexivity|]. simpl. repeat split. exact Hsame.
Qed.

Lemma front_calls_run_spec cs : forall w,
  exists w' new,
    front_calls_run cs w = (Ok tt, w') /\
    q_items (GpuMiner.work_queue (self w)) (mgr w') =
      q_items (GpuMiner.work_queue (self w)) (mgr w) ++ new /\
    (forall q, q <> GpuMiner.work_queue (self w) -> q_items q (mgr w') = q_items q (mgr w)) /\
    Forall (ready_context (GpuMiner.solver_nonce (self w))) new /\
    GpuMiner.work_queue (self w') = GpuMiner.work_queue (self w) /\
    GpuMiner.solver_nonce (self w') = GpuMiner.solver_nonce (self w) /\
    (cs <> [] ->
     forall j n1, GpuMiner.last_received_job (self w') = Some j ->
                  GpuMiner.nonce1 (self w') = Some n1 ->
     exists before, new = before ++
                          [MiningContext (Some j) (Some n1) (GpuMiner.solver_nonce (self w))]).
Proof.
  induction cs as [|c cs IH]; intros w.
  - exists w, []. simpl. unfold ret. rewrite app_nil_r. repeat split; auto. congruence.
  - destruct (front_call_run_spec c w) as (w1 & new1 & Hrun1 & Hmgr & Hwq & Hsn & Hnew1).
    cbn [front_calls_run]. erewrite bind_ok by exact Hrun1.
    destruct (IH w1) as (w' & new2 & Hrun2 & Hq2 & Hoth2 & Hfor2 & Hwq2 & Hsn2 & Hlast2).
    rewrite Hwq in *. rewrite Hsn in *. rewrite Hmgr in Hq2, Hoth2.
    exists w', (new1 ++ new2). split; [exact Hrun2|].
    rewrite q_items_store_same in Hq2.
    assert (Hfor1 : Forall (ready_context (GpuMiner.solver_nonce (self w))) new1).
    { rewrite Hnew1. destruct (GpuMiner.last_received_job (self w1)) as [j|];
        [destruct (GpuMiner.nonce1 (self w1)) as [n1|]|]; constructor; try constructor.
      unfold ready_context. eauto. }
    repeat split.
    + rewrite Hq2, app_assoc. reflexivity.
    + intros q Hne. rewrite Hoth2 by exact Hne. now apply q_items_store_other.
    + apply Forall_app. split; assumption.
    + exact Hwq2.
    + exact Hsn2.
    + intros _ j n1 Hj Hn. destruct cs as [|c' cs'].
      * simpl in Hrun2. unfold ret in Hrun2. inversion Hrun2; subst w'.
        exists []. rewrite Hnew1, Hj, Hn.
        assert (new2 = []) as ->.
        { rewrite Hmgr, q_items_store_same in Hq2.
          rewrite <- (app_nil_r (_ ++ new1)) in Hq2 at 1.
          apply app_inv_head in Hq2. congruence. }
        reflexivity.
      * destruct (Hlast2 ltac:(discriminate) j n1 Hj Hn) as [before Hb].
        exists (new1 ++ before). rewrite Hb, app_assoc. reflexivity.
Qed.

(** X9.  Whatever notifications the frontend receives and in whatever
    order, everything it puts on the work queue is a context with a
    job, a nonce1 and the frontend's own solver nonce; it appends
    only, and it leaves the other queue alone. *)
Theorem frontend_enqueues_only_ready_contexts cs w :
  exists w' new,
    front_calls_run cs w = (Ok tt, w') /\
    q_items (GpuMiner.work_queue (self w)) (mgr w') =
      q_items (GpuMiner.work_queue (self w)) (mgr w) ++ new /\
    Forall (ready_context (GpuMiner.solver_nonce (self w))) new /\
    forall q, q <> GpuMiner.work_queue (self w) -> q_items q (mgr w') = q_items q (mgr w).
Proof.
  destruct (front_calls_run_spec cs w) as (w' & new & Hrun & Hq & Hoth & Hfor & _).
  exists w', new. repeat split; assumption.
Qed.

(** X10.  After any notification, if the frontend then knows both a
    job and a nonce1, the newest item on the work queue is exactly
    its current context: the backend is never left with something
    older than what the frontend holds. *)
Theorem newest_item_is_current_context cs w w' j n1 :
  cs <> [] ->
  front_calls_run cs w = (Ok tt, w') ->
  GpuMiner.last_received_job (self w') = Some j ->
  GpuMiner.nonce1 (self w') = Some n1 ->
  exists before,
    q_items (GpuMiner.work_queue (self w')) (mgr w') =
    before ++ [MiningContext (Some j) (Some n1) (GpuMiner.solver_nonce (self w'))].
Proof.
  intros Hne Hrun Hj Hn.
  destruct (front_calls_run_spec cs w)
    as (w2 & new & Hrun2 & Hq & _ & _ & Hwq & Hsn & Hlast).
  rewrite Hrun in Hrun2. inversion Hrun2; subst w2.
  destruct (Hlast Hne j n1 Hj Hn) as [before Hb].
  exists (q_items (GpuMiner.work_queue (self w)) (mgr w) ++ before).
  rewrite Hwq, Hsn, Hq, Hb, app_assoc. reflexivity.
Qed.

Lemma frontend_loop_step fuel w j n2 sol c rest :
  GpuMiner._stop (self w) = false ->
  q_items (GpuMiner.result_queue (self w)) (mgr w) = SolutionMessage j n2 sol c :: rest ->
  GpuMiner.loop (S fuel) w =
  GpuMiner.loop fuel
    (mkWorld (self w) (q_store (GpuMiner.result_queue (self w)) rest (mgr w))
       (trace w ++ solution_events (SolutionMessage j n2 sol c))).
Proof.
  intros Hstop Hq. cbn [GpuMiner.loop].
  erewrite bind_ok.
  2:{ unfold GpuMiner.loop_body, GpuMiner.unpack4, GpuMiner.count_solutions,
             GpuMiner.submit_solution.
      py_unfold. simpl. rewrite Hstop, Hq. simpl. reflexivity. }
  cbv beta iota. simpl. now rewrite <- !app_assoc.
Qed.

Lemma frontend_loop_drains msgs : forall k w,
  GpuMiner._stop (self w) = false ->
  q_items (GpuMiner.result_queue (self w)) (mgr w) = msgs ->
  forallb is_solution msgs = true ->
  GpuMiner.loop (S (List.length msgs + k)) w =
  (Pending,
   mkWorld (self w) (q_store (GpuMiner.result_queue (self w)) [] (mgr w))
     (trace w ++ flat_map solution_events msgs)).
Proof.
  induction msgs as [|it msgs IH]; intros k w Hstop Hq Hsol.
  - cbn [List.length Nat.add GpuMiner.loop].
    unfold GpuMiner.loop_body. py_unfold. simpl. rewrite Hstop, Hq. simpl.
    rewrite app_nil_r, <- Hq. destruct w as [s m tr]; simpl.
    destruct (GpuMiner.result_queue s), m; reflexivity.
  - destruct it as [oj on1 osn|j n2 sol c]; [discriminate|]. simpl in Hsol.
    cbn [List.length Nat.add].
    rewrite (frontend_loop_step _ w j n2 sol c msgs Hstop Hq).
    rewrite IH.
    + cbn [self mgr trace flat_map]. f_equal. f_equal.
      * destruct (GpuMiner.result_queue (self w)), (mgr w); reflexivity.
      * now rewrite <- !app_assoc.
    + exact Hstop.
    + cbn [self mgr]. apply q_items_store_same.
    + exact Hsol.
Qed.

(** X11.  With the stop flag unset, the frontend loop takes the
    Solution Messages off the result queue in the order they were
    put, and for each of them calls the accounting callback once with
    its counter and forwards its solution once; when the queue is
    empty it waits in the receive.  The work queue is not touched. *)
Theorem frontend_drains_in_order msgs k w :
  GpuMiner._stop (self w) = false ->
  q_items (GpuMiner.result_queue (self w)) (mgr w) = msgs ->
  forallb is_solution msgs = true ->
  exists w',
    GpuMiner.loop (S (List.length msgs + k)) w = (Pending, w') /\
    trace w' = trace w ++ flat_map solution_events msgs /\
    q_items (GpuMiner.result_queue (self w)) (mgr w') = [] /\
    (forall q, q <> GpuMiner.result_queue (self w) -> q_items q (mgr w') = q_items q (mgr w)) /\
    counter_total (trace w') = counter_total (trace w) + sum_counted msgs.
Proof.
  intros Hstop Hq Hsol. eexists. split; [apply frontend_loop_drains; eassumption|].
  cbn [self mgr trace]. repeat split.
  - apply q_items_store_same.
  - intros q Hne. now apply q_items_store_other.
  - rewrite counter_total_app, counter_total_solution_events. reflexivity.
Qed.

End FrontendRuns.

(** ** The two processes together *)

Section EndToEnd.
Context {Solver SolverClass : Type}.
Variable solve : Solver -> Job -> option bytes -> option bytes -> GpuMinerProcess.pow_result Solver.
Local Abbreviation worker := (GpuMinerProcess.t Solver).
Local Abbreviation miner := (GpuMiner.t SolverClass).

Lemma solutions_are_solutions job new :
  Forall (solution_for job) new -> forallb is_solution new = true.
Proof.
  induction 1 as [|it l (n2 & sol & c & ->) _ IH]; simpl; auto.
Qed.

(** X12.  Across the result queue: whatever the backend counts and
    submits, once the frontend has emptied the queue the attempts it
    has handed to the accounting callback plus the attempts still in
    the backend's counter are exactly the attempts the backend held
    and counted.  The frontend has forwarded one solution per
    submission and waits for the next. *)
Theorem accounting_across_the_result_queue
    (wb : World worker) (f : miner) rq job calls tr k :
  GpuMinerProcess.result_queue (self wb) = Some rq ->
  q_items rq (mgr wb) = [] ->
  GpuMiner.result_queue f = rq ->
  GpuMiner._stop f = false ->
  exists wb' wf',
    GpuMinerProcess.do_calls job calls wb = (Ok tt, wb') /\
    GpuMiner.loop (S (submissions calls + k)) (mkWorld f (mgr wb') tr) = (Pending, wf') /\
    q_items rq (mgr wf') = [] /\
    counter_total (trace wf') + GpuMinerProcess.solution_count (self wb') =
    counter_total tr + GpuMinerProcess.solution_count (self wb) + calls_total calls.
Proof.
  intros Hrq Hempty Hf Hstop.
  destruct (do_calls_installed job calls wb rq Hrq) as (c & new & Hrun & Hlen & Hfor & Hsum & _).
  eexists. eexists. split; [exact Hrun|].
  cbn [self mgr trace]. rewrite <- Hlen.
  assert (Hq : q_items (GpuMiner.result_queue f)
                 (q_store rq (q_items rq (mgr wb) ++ new) (mgr wb)) = new).
  { rewrite Hf, q_items_store_same, Hempty. reflexivity. }
  split.
  - apply (frontend_loop_drains new k
             (mkWorld f (q_store rq (q_items rq (mgr wb) ++ new) (mgr wb)) tr) Hstop Hq).
    eapply solutions_are_solutions; eassumption.
  - cbn [self mgr trace]. rewrite Hf, q_items_store_same. split; [reflexivity|].
    rewrite counter_total_app, counter_total_solution_events.
    simpl. lia.
Qed.

(** X13.  Across the work queue: when a frontend without job and
    nonce1 has been given both, in either order, a backend pass on the
    same manager receives exactly that context and calls [do_pow] on
    the frontend's job, nonce1 and solver nonce, whatever job and
    nonces the backend held before. *)
Theorem backend_solves_on_the_enqueued_context
    (wf wf' : World miner) J cb N sn cs (s : worker) solver job tr r w' :
  GpuMiner.last_received_job (self wf) = None ->
  GpuMiner.nonce1 (self wf) = None ->
  GpuMiner.solver_nonce (self wf) = Some sn ->
  q_items (GpuMiner.work_queue (self wf)) (mgr wf) = [] ->
  cs = [CallRegisterNewJob (Some J) cb; CallSetNonce1 (Some N)] \/
  cs = [CallSetNonce1 (Some N); CallRegisterNewJob (Some J) cb] ->
  front_calls_run cs wf = (Ok tt, wf') ->
  GpuMinerProcess.loop_body solve (GpuMiner.work_queue (self wf)) solver job
    (mkWorld s (mgr wf') tr) = (r, w') ->
  trace w' = tr ++
    [EvLog INFO (MsgReceivedJob (job_id J) (hexlify_bytes N) (hexlify_bytes sn));
     EvDoPow J (Some N) (Some sn)].
Proof.
  intros Hj Hn Hsn Hq Hcs Hrun Hbody.
  assert (Hwq : q_items (GpuMiner.work_queue (self wf)) (mgr wf')
                = [MiningContext (Some J) (Some N) (Some sn)]).
  { destruct Hcs as [-> | ->]; simpl in Hrun;
      unfold GpuMiner.register_new_job, GpuMiner.set_nonce1,
             GpuMiner._enqueue_last_mining_job,
             GpuMiner.base_register_new_job, GpuMiner.base_set_nonce1 in Hrun;
      py_unfold; simpl in Hrun; rewrite ?Hj, ?Hn in Hrun; simpl in Hrun;
      inversion Hrun; subst wf'; simpl;
      rewrite q_items_store_same, Hq, Hsn; reflexivity. }
  destruct (loop_body_received solve _ solver job (mkWorld s (mgr wf') tr)
              J N sn [] r w' Hwq Hbody) as (Htr & _).
  exact Htr.
Qed.

End EndToEnd.

(** ** The names the two objects print under *)

Lemma no_char_in_uint c :
  has_char c "0123456789" = false ->
  forall d, has_char c (NilEmpty.string_of_uint d) = false.
Proof.
  intros H. simpl in H. repeat (apply orb_false_iff in H; destruct H as [? H]).
  induction d; simpl; rewrite ?IHd, ?orb_false_r; assumption || reflexivity.
Qed.

Lemma no_char_in_str_int c z :
  has_char c "-0123456789" = false -> has_char c (str_int z) = false.
Proof.
  intros H. simpl in H. apply orb_false_iff in H. destruct H as [Hm H].
  pose proof (no_char_in_uint c H) as Hu.
  assert (Hu0 : forall d, has_char c (NilZero.string_of_uint d) = false).
  { intros d. destruct d; try apply Hu. simpl.
    simpl in H. apply orb_false_iff in H. destruct H as [H0 _]. now rewrite H0. }
  unfold str_int. destruct (Z.to_int z); simpl; rewrite ?Hm, Hu0; reflexivity.
Qed.

Lemma str_int_inj a b : str_int a = str_int b -> a = b.
Proof.
  unfold str_int. intros H.
  assert (Hgood : forall z, Z.to_int z <> Decimal.Pos Decimal.Nil /\
                            Z.to_int z <> Decimal.Neg Decimal.Nil).
  { intros [|p|p]; simpl; split; try discriminate;
      intros Heq; inversion Heq as [Hp]; exact (Unsigned.to_uint_nonnil p Hp). }
  assert (Hi : Some (Z.to_int a) = Some (Z.to_int b)).
  { rewrite <- (NilZero.isi (Z.to_int a)) by apply Hgood.
    rewrite <- (NilZero.isi (Z.to_int b)) by apply Hgood.
    now rewrite H. }
  inversion Hi as [Hab].
  rewrite <- (DecimalZ.of_to a), <- (DecimalZ.of_to b), Hab. reflexivity.
Qed.

Lemma append_sep_inj c : forall a a' r r',
  has_char c a = false -> has_char c a' = false ->
  (a ++ String c r)%string = (a' ++ String c r')%string ->
  a = a' /\ r = r'.
Proof.
  induction a as [|x a IH]; intros [|x' a'] r r' Ha Ha' H; simpl in *.
  - inversion H. split; reflexivity.
  - inversion H; subst. rewrite Ascii.eqb_refl in Ha'. discriminate.
  - inversion H; subst. rewrite Ascii.eqb_refl in Ha. discriminate.
  - inversion H; subst.
    apply orb_false_iff in Ha. apply orb_false_iff in Ha'.
    destruct (IH a' r r' (proj2 Ha) (proj2 Ha') H2) as [-> ->]. split; reflexivity.
Qed.

(** X14.  The frontend prints the same name exactly when the device
    is the same, whatever format spec it is given: the names tell the
    devices apart. *)
Theorem frontend_name_identifies_device {C : Type} (s s' : GpuMiner.t C) spec spec' :
  GpuMiner.__format__ s spec = GpuMiner.__format__ s' spec' <->
  GpuMiner.gpu_id s = GpuMiner.gpu_id s'.
Proof.
  unfold GpuMiner.__format__. split; [|intros ->; reflexivity].
  destruct (GpuMiner.gpu_id s) as [a b], (GpuMiner.gpu_id s') as [a' b']. simpl.
  intros H. inversion H as [H1]. clear H.
  apply append_sep_inj in H1; try (apply no_char_in_str_int; reflexivity).
  destruct H1 as [Ha Hb].
  apply append_sep_inj in Hb; try (apply no_char_in_str_int; reflexivity).
  destruct Hb as [Hb _].
  apply str_int_inj in Ha. apply str_int_inj in Hb. now subst.
Qed.

(** X15.  The backend prints the same name exactly when the device
    and the process id are the same, whatever format spec it is
    given; and no backend ever prints the name of a frontend. *)
Theorem backend_name_identifies_device_and_process
    {Solver C : Type} (s s' : GpuMinerProcess.t Solver) (f : GpuMiner.t C)
    spec spec' spec'' pid pid' :
  (GpuMinerProcess.__format__ s spec pid = GpuMinerProcess.__format__ s' spec' pid' <->
   GpuMinerProcess.gpu_id s = GpuMinerProcess.gpu_id s' /\ pid = pid') /\
  GpuMinerProcess.__format__ s spec pid <> GpuMiner.__format__ f spec''.
Proof.
  unfold GpuMinerProcess.__format__, GpuMiner.__format__. split; [|simpl; discriminate].
  split; [|intros [-> ->]; reflexivity].
  destruct (GpuMinerProcess.gpu_id s) as [a b], (GpuMinerProcess.gpu_id s') as [a' b'].
  simpl. intros H. inversion H as [H1]. clear H.
  apply append_sep_inj in H1; try (apply no_char_in_str_int; reflexivity).
  destruct H1 as [Ha Hb].
  apply append_sep_inj in Hb; try (apply no_char_in_str_int; reflexivity).
  destruct Hb as [Hb Hp]. simpl in Hp. inversion Hp as [Hp1]. clear Hp.
  apply append_sep_inj in Hp1; try (apply no_char_in_str_int; reflexivity).
  destruct Hp1 as [Hp _].
  apply str_int_inj in Ha. apply str_int_inj in Hb. apply str_int_inj in Hp. now subst.
Qed.

(** ** The further properties on concrete runs *)

Lemma attempts_are_conserved_witness :
  GpuMinerProcess.result_queue (self w_full) = Some ResultQ /\
  exists w' new,
    GpuMinerProcess.do_calls J1 calls_demo w_full = (Ok tt, w') /\
    q_items ResultQ (mgr w') = q_items ResultQ (mgr w_full) ++ new /\
    List.length new = submissions calls_demo /\
    Forall (solution_for J1) new /\
    sum_counted new + GpuMinerProcess.solution_count (self w') =
    GpuMinerProcess.solution_count (self w_full) + calls_total calls_demo.
Proof.
  split; [reflexivity|].
  apply (attempts_are_conserved w_full ResultQ J1 calls_demo). reflexivity.
Defined.

(** Of the 7 + 14 attempts, 10 and 9 travel and 2 stay. *)
Example attempts_are_conserved_on_the_queue :
  q_items ResultQ (mgr (snd (GpuMinerProcess.do_calls J1 calls_demo w_full))) =
    [SolutionMessage J1 [x09] [x0a] 10; SolutionMessage J1 [x0b] [x0c] 9] /\
  GpuMinerProcess.solution_count (self (snd (GpuMinerProcess.do_calls J1 calls_demo w_full))) = 2.
Proof. split; reflexivity. Qed.

Lemma attempts_stay_nonnegative_witness :
  0 <= GpuMinerProcess.solution_count (self w_full) /\
  counts_nonneg calls_demo /\
  exists w' new,
    GpuMinerProcess.do_calls J1 calls_demo w_full = (Ok tt, w') /\
    q_items ResultQ (mgr w') = q_items ResultQ (mgr w_full) ++ new /\
    Forall (fun it => 0 <= counted_of it) new /\
    0 <= GpuMinerProcess.solution_count (self w').
Proof.
  assert (H0 : 0 <= GpuMinerProcess.solution_count (self w_full)) by (simpl; lia).
  assert (Hnn : counts_nonneg calls_demo)
    by (unfold counts_nonneg, calls_demo; repeat constructor; lia).
  split; [exact H0|]. split; [exact Hnn|].
  exact (attempts_stay_nonnegative w_full ResultQ J1 calls_demo eq_refl H0 Hnn).
Defined.

Lemma run_on_empty_queue_only_sleeps_witness :
  q_items WorkQ (mgr w_not_started) = [] /\
  GpuMinerProcess.run scripted_solve 2 ResultQ WorkQ w_not_started =
  (Pending,
   mkWorld (GpuMinerProcess.set_result_queue (Some ResultQ) (self w_not_started)) no_queues
     [EvLog DEBUG (MsgInstantiating false); EvSolverInit (0, 0) false;
      EvLog DEBUG (MsgInstantiated false);
      EvLog DEBUG MsgNoNonce1Waiting; EvSleep 2; EvPrint ".";
      EvLog DEBUG MsgNoNonce1Waiting; EvSleep 2; EvPrint "."]).
Proof.
  split; [reflexivity|].
  exact (run_on_empty_queue_only_sleeps scripted_solve WorkQ 2 ResultQ w_not_started []
           eq_refl eq_refl).
Defined.

Lemma incomplete_received_context_raises_witness :
  q_items WorkQ (mgr w_incomplete_waiting) = [MiningContext (Some J1) None (Some SN); ctx2] /\
  GpuMinerProcess.loop_body scripted_solve WorkQ [] None w_incomplete_waiting =
  (Raise TypeError,
   mkWorld (started_worker None (Some SN) 0) (mkManager [ctx2] []) []).
Proof.
  split; [reflexivity|].
  exact (incomplete_received_context_raises scripted_solve WorkQ [] None w_incomplete_waiting
           (Some J1) None (Some SN) [ctx2] eq_refl (or_intror (or_introl eq_refl))).
Defined.

Lemma pass_keeps_queue_directions_witness :
  GpuMinerProcess.result_queue (self w_two_waiting) = Some ResultQ /\
  (q_items WorkQ (mgr (snd (GpuMinerProcess.loop_body scripted_solve WorkQ
                              [(calls_demo, None)] None w_two_waiting))) = [ctx1; ctx2] \/
   q_items WorkQ (mgr (snd (GpuMinerProcess.loop_body scripted_solve WorkQ
                              [(calls_demo, None)] None w_two_waiting))) = [ctx2]).
Proof.
  split; [reflexivity|].
  apply (pass_keeps_queue_directions scripted_solve WorkQ
           [(calls_demo, None)] None w_two_waiting ResultQ
           (fst (GpuMinerProcess.loop_body scripted_solve WorkQ
                   [(calls_demo, None)] None w_two_waiting))
           (snd (GpuMinerProcess.loop_body scripted_solve WorkQ
                   [(calls_demo, None)] None w_two_waiting))).
  - reflexivity.
  - discriminate.
  - reflexivity.
Defined.

Lemma received_context_replaces_current_witness :
  q_items WorkQ (mgr w_switch) = [ctx2] /\
  trace (snd (GpuMinerProcess.loop scripted_solve 2 WorkQ [] (Some J1) w_switch)) =
  [EvLog INFO (MsgReceivedJob (job_id J2) (hexlify_bytes N1) (hexlify_bytes SN));
   EvDoPow J2 (Some N1) (Some SN);
   EvLog DEBUG MsgNoNewJob;
   EvDoPow J2 (Some N1) (Some SN)].
Proof.
  split; [reflexivity|].
  apply (received_context_replaces_current scripted_solve WorkQ
           [] (Some J1) w_switch ResultQ J2 N1 SN).
  - reflexivity.
  - reflexivity.
  - discriminate.
  - reflexivity.
Defined.

Lemma run_miner_process_endings_witness :
  exists e tr',
    is_Exception e = true /\
    trace (snd (run_miner_process scripted_solve 4 true (Some SN) (0, 0)
                  (failing_class (SolverError "no device")) ResultQ WorkQ no_queues [])) =
    tr' ++ [EvLog ERROR (MsgFATAL e true)].
Proof.
  apply (proj1 (run_miner_process_endings scripted_solve 4 true (Some SN) (0, 0)
                  (failing_class (SolverError "no device")) ResultQ WorkQ no_queues []
                  (Ok tt)
                  (snd (run_miner_process scripted_solve 4 true (Some SN) (0, 0)
                          (failing_class (SolverError "no device")) ResultQ WorkQ no_queues []))
                  eq_refl)).
  reflexivity.
Defined.

Lemma failed_construction_touches_nothing_witness :
  GpuMinerProcess.run scripted_solve 4 ResultQ WorkQ w_cannot_build =
  (Raise (SolverError "no device"),
   mkWorld (self w_cannot_build) (mkManager [ctx1] [])
     [EvLog DEBUG (MsgInstantiating true); EvSolverInit (0, 0) true]).
Proof.
  exact (failed_construction_touches_nothing scripted_solve 4 ResultQ WorkQ w_cannot_build
           (SolverError "no device") eq_refl).
Defined.

(** Five notifications, one of them forgetting nonce1: two contexts
    are queued, none with a part missing. *)
Example frontend_enqueues_only_ready_contexts_run :
  q_items WorkQ (mgr (snd (front_calls_run front_calls_demo fresh_frontend))) = [ctx1; ctx2].
Proof. reflexivity. Qed.

Lemma newest_item_is_current_context_witness :
  GpuMiner.last_received_job (self (snd (front_calls_run front_calls_demo fresh_frontend)))
    = Some J2 /\
  exists before,
    q_items WorkQ (mgr (snd (front_calls_run front_calls_demo fresh_frontend))) =
    before ++ [MiningContext (Some J2) (Some N1) (Some SN)].
Proof.
  split; [reflexivity|].
  apply (newest_item_is_current_context front_calls_demo fresh_frontend
           (snd (front_calls_run front_calls_demo fresh_frontend)) J2 N1).
  - discriminate.
  - reflexivity.
  - reflexivity.
  - reflexivity.
Defined.

Lemma frontend_drains_in_order_witness :
  GpuMiner._stop (self frontend_with_two_results) = false /\
  exists w',
    GpuMiner.loop 3 frontend_with_two_results = (Pending, w') /\
    trace w' = [] ++ flat_map solution_events
                       [SolutionMessage J1 [x09] [x0a] 3; SolutionMessage J1 [x0b] [x0c] 9] /\
    q_items ResultQ (mgr w') = [] /\
    (forall q, q <> ResultQ -> q_items q (mgr w') = q_items q (mgr frontend_with_two_results)) /\
    counter_total (trace w') =
    0 + sum_counted [SolutionMessage J1 [x09] [x0a] 3; SolutionMessage J1 [x0b] [x0c] 9].
Proof.
  split; [reflexivity|].
  apply (frontend_drains_in_order
           [SolutionMessage J1 [x09] [x0a] 3; SolutionMessage J1 [x0b] [x0c] 9]
           0 frontend_with_two_results); reflexivity.
Defined.

Lemma accounting_across_the_result_queue_witness :
  q_items ResultQ (mgr w_full) = [] /\
  exists wb' wf',
    GpuMinerProcess.do_calls J1 calls_demo w_full = (Ok tt, wb') /\
    GpuMiner.loop (S (submissions calls_demo + 0))
      (mkWorld (self fresh_frontend) (mgr wb') []) = (Pending, wf') /\
    q_items ResultQ (mgr wf') = [] /\
    counter_total (trace wf') + GpuMinerProcess.solution_count (self wb') =
    counter_total [] + GpuMinerProcess.solution_count (self w_full) + calls_total calls_demo.
Proof.
  split; [reflexivity|].
  apply (accounting_across_the_result_queue
           w_full (self fresh_frontend) ResultQ J1 calls_demo [] 0); reflexivity.
Defined.

Lemma backend_solves_on_the_enqueued_context_witness :
  q_items WorkQ (mgr fresh_frontend) = [] /\
  trace (snd (GpuMinerProcess.loop_body scripted_solve WorkQ [] (Some J2)
                (mkWorld (started_worker None None 0)
                         (mgr frontend_after_nonce_then_job) []))) =
  [EvLog INFO (MsgReceivedJob (job_id J1) (hexlify_bytes N1) (hexlify_bytes SN));
   EvDoPow J1 (Some N1) (Some SN)].
Proof.
  split; [reflexivity|].
  apply (backend_solves_on_the_enqueued_context scripted_solve
           fresh_frontend frontend_after_nonce_then_job J1 None N1 SN
           [CallSetNonce1 (Some N1); CallRegisterNewJob (Some J1) None]
           (started_worker None None 0) [] (Some J2) []
           (fst (GpuMinerProcess.loop_body scripted_solve WorkQ [] (Some J2)
                   (mkWorld (started_worker None None 0)
                            (mgr frontend_after_nonce_then_job) [])))
           (snd (GpuMinerProcess.loop_body scripted_solve WorkQ [] (Some J2)
                   (mkWorld (started_worker None None 0)
                            (mgr frontend_after_nonce_then_job) [])))).
  - reflexivity.
  - reflexivity.
  - reflexivity.
  - reflexivity.
  - right. reflexivity.
  - reflexivity.
  - reflexivity.
Defined.

(** The names of device (1, 0), in process 4242 for the backend. *)
Example names_of_device_1_0 :
  GpuMiner.__format__ (self (GpuMiner.__init__ (Some SN) "counter"%string (1, 0) tt)) ""
    = "Async-frontend-GPU[1:0]"%string /\
  GpuMinerProcess.__format__
    (GpuMinerProcess.__init__ (Some SN) (1, 0) (scripted_class []) false) "" 4242
    = "GPU[1:0](pid=4242)"%string.
Proof. split; reflexivity. Qed.

Lemma frontend_name_identifies_device_witness :
  GpuMiner.__format__ (self fresh_frontend) "" =
  GpuMiner.__format__ (self frontend_with_result) ">10" /\
  GpuMiner.gpu_id (self fresh_frontend) = GpuMiner.gpu_id (self frontend_with_result).
Proof.
  split; [reflexivity|].
  apply (proj1 (frontend_name_identifies_device
                  (self fresh_frontend) (self frontend_with_result) "" ">10")).
  reflexivity.
Defined.

Lemma backend_name_identifies_device_and_process_witness :
  GpuMinerProcess.__format__ (self w_full) "" 4242 =
  GpuMinerProcess.__format__ (self w_waiting) ">10" 4242 /\
  GpuMinerProcess.gpu_id (self w_full) = GpuMinerProcess.gpu_id (self w_waiting).
Proof.
  split; [reflexivity|].
  apply (proj1 (proj1 (backend_name_identifies_device_and_process
                         (self w_full) (self w_waiting) (self fresh_frontend)
                         "" ">10" "" 4242 4242))).
  reflexivity.
Defined.

(** ** The contexts the backend loop holds and receives *)

Section LoopContexts.
Context {Solver : Type}.
Variable solve : Solver -> Job -> option bytes -> option bytes -> GpuMinerProcess.pow_result Solver.
Variable work_queue : qref.
Local Abbreviation worker := (GpuMinerProcess.t Solver).
Implicit Types (w : World worker) (job : option Job) (solver : Solver).

Lemma loop_body_raise_at_fetch solver job w e w1 :
  GpuMinerProcess.fetch work_queue job w = (Raise e, w1) ->
  GpuMinerProcess.loop_body solve work_queue solver job w = (Raise e, w1).
Proof. intros H. unfold GpuMinerProcess.loop_body. now apply bind_raise. Qed.

Lemma fetch_wrong_item job w j n2 sol c rest :
  q_items work_queue (mgr w) = SolutionMessage j n2 sol c :: rest ->
  GpuMinerProcess.fetch work_queue job w =
  (Raise ValueError, mkWorld (self w) (q_store work_queue rest (mgr w)) (trace w)).
Proof.
  intros Hq. unfold GpuMinerProcess.fetch, GpuMinerProcess.unpack3. py_unfold. simpl.
  rewrite Hq. reflexivity.
Qed.

(** One pass from a state in which the local job, if there is one, is
    held with both nonces: whatever [do_pow] call it makes has both
    nonces, and if it returns it leaves such a state again. *)
Lemma loop_body_coherent solver job w r w' :
  context_coherent job (self w) = true ->
  GpuMinerProcess.loop_body solve work_queue solver job w = (r, w') ->
  (exists tr, trace w' = trace w ++ tr /\ forallb pow_has_nonces tr = true) /\
  (forall solver' job', r = Ok (solver', job') -> context_coherent job' (self w') = true).
Proof.
  intros Hco Hbody.
  destruct (q_items work_queue (mgr w)) as [|it rest] eqn:Hq.
  - destruct job as [j|].
    + unfold context_coherent in Hco.
      destruct (GpuMinerProcess.nonce1 (self w)) as [n1|] eqn:Hn; [|discriminate].
      destruct (GpuMinerProcess.solver_nonce (self w)) as [sn|] eqn:Hsn; [|discriminate].
      unfold GpuMinerProcess.loop_body in Hbody.
      erewrite bind_ok in Hbody by (eapply fetch_empty_solve; eauto).
      cbv beta iota in Hbody. unfold bind at 1 in Hbody.
      match type of Hbody with
      | context [GpuMinerProcess.do_pow solve solver j ?w0] =>
          destruct (GpuMinerProcess.do_pow solve solver j w0) as [r0 w2] eqn:Hp
      end.
      apply do_pow_frame in Hp. simpl in Hp. destruct Hp as (Htr & [c Hs] & _ & _).
      rewrite Hn, Hsn in Htr.
      assert (w' = w2) as -> by (destruct r0; unfold ret in Hbody; congruence).
      split.
      * exists [EvLog DEBUG MsgNoNewJob; EvDoPow j (Some n1) (Some sn)].
        split; [rewrite Htr, <- app_assoc; reflexivity|reflexivity].
      * intros solver' job' ->. destruct r0; unfold ret in Hbody; inversion Hbody; subst.
        unfold context_coherent. rewrite Hs. simpl. now rewrite Hn, Hsn.
    + rewrite (loop_body_idle solve work_queue solver None w Hq (or_introl eq_refl)) in Hbody.
      inversion Hbody; subst. split.
      * exists idle_events. split; reflexivity.
      * intros solver' job' Heq. inversion Heq; subst. reflexivity.
  - destruct it as [oj on1 osn|j n2 sol c].
    + destruct oj as [j|]; [destruct on1 as [n1|]; [destruct osn as [sn|]|]|].
      * destruct (loop_body_received solve work_queue solver job w j n1 sn rest r w' Hq Hbody)
          as (Htr & [c Hs] & _ & Hjob).
        split.
        -- eexists. split; [exact Htr|reflexivity].
        -- intros solver' job' Heq. specialize (Hjob _ Heq). simpl in Hjob. subst job'.
           unfold context_coherent. rewrite Hs. reflexivity.
      * destruct (fetch_received_incomplete work_queue job w _ _ _ rest Hq) as (e & _ & He);
          [right; right; reflexivity|].
        rewrite (loop_body_raise_at_fetch _ _ _ _ _ He) in Hbody. inversion Hbody; subst.
        split; [exists []; simpl; rewrite app_nil_r; split; reflexivity|discriminate].
      * destruct (fetch_received_incomplete work_queue job w _ _ _ rest Hq) as (e & _ & He);
          [right; left; reflexivity|].
        rewrite (loop_body_raise_at_fetch _ _ _ _ _ He) in Hbody. inversion Hbody; subst.
        split; [exists []; simpl; rewrite app_nil_r; split; reflexivity|discriminate].
      * destruct (fetch_received_incomplete work_queue job w _ _ _ rest Hq) as (e & _ & He);
          [left; reflexivity|].
        rewrite (loop_body_raise_at_fetch _ _ _ _ _ He) in Hbody. inversion Hbody; subst.
        split; [exists []; simpl; rewrite app_nil_r; split; reflexivity|discriminate].
    + rewrite (loop_body_raise_at_fetch _ _ _ _ _ (fetch_wrong_item job w _ _ _ _ _ Hq))
        in Hbody.
      inversion Hbody; subst.
      split; [exists []; simpl; rewrite app_nil_r; split; reflexivity|discriminate].
Qed.

Lemma worker_steps_coherent st st' :
  worker_steps solve work_queue st st' ->
  context_coherent (snd (fst st)) (self (snd st)) = true ->
  context_coherent (snd (fst st')) (self (snd st')) = true /\
  exists tr, trace (snd st') = trace (snd st) ++ tr /\ forallb pow_has_nonces tr = true.
Proof.
  induction 1 as [st | st st' st'' Hsteps IH Hstep]; intros Hco.
  - split; [exact Hco|]. exists []. now rewrite app_nil_r.
  - destruct (IH Hco) as (Hco' & tr & Htr & Hpn).
    destruct Hstep as [solver job w m' | solver job w solver' job' w' Hbody]; simpl in *.
    + split; [exact Hco'|]. exists tr. split; assumption.
    + destruct (loop_body_coherent _ _ _ _ _ Hco' Hbody) as ((tr' & Htr' & Hpn') & Hnext).
      split; [exact (Hnext _ _ eq_refl)|].
      exists (tr ++ tr'). split.
      * now rewrite Htr', Htr, app_assoc.
      * rewrite forallb_app, Hpn, Hpn'. reflexivity.
Qed.

(** C7, as the code has it.  Take the loop of [run] from its start,
    where there is no local job, through any passes and any changes
    the other processes make to the queues.  Every [do_pow] call made
    so far, and every [do_pow] call of the next pass, is made with a
    job, a nonce1 and a solver nonce: solving proceeds only when all
    three are present.  The next pass idles, without solving, when it
    finds the work queue empty and the job or nonce1 is absent.  It
    does not idle on a context that arrives with a part missing, the
    solver nonce for one: it neither sleeps nor solves. *)
Theorem solving_needs_full_context solver0 w0 solver job w r w' :
  worker_steps solve work_queue (solver0, None, w0) (solver, job, w) ->
  GpuMinerProcess.loop_body solve work_queue solver job w = (r, w') ->
  (exists tr0 tr, trace w = trace w0 ++ tr0 /\ trace w' = trace w ++ tr /\
                  forallb pow_has_nonces (tr0 ++ tr) = true) /\
  (q_items work_queue (mgr w) = [] ->
   job = None \/ GpuMinerProcess.nonce1 (self w) = None ->
   trace w' = trace w ++ [EvLog DEBUG MsgNoNonce1Waiting; EvSleep 2; EvPrint "."]) /\
  (forall oj on1 osn rest,
   q_items work_queue (mgr w) = MiningContext oj on1 osn :: rest ->
   oj = None \/ on1 = None \/ osn = None ->
   trace w' = trace w).
Proof.
  intros Hsteps Hbody.
  destruct (worker_steps_coherent _ _ Hsteps eq_refl) as (Hco & tr0 & Htr0 & Hpn0).
  simpl in Hco, Htr0.
  destruct (loop_body_coherent _ _ _ _ _ Hco Hbody) as ((tr & Htr & Hpn) & _).
  split; [|split].
  - exists tr0, tr. repeat split; try assumption.
    rewrite forallb_app, Hpn0, Hpn. reflexivity.
  - intros Hq Habs. rewrite (loop_body_idle solve work_queue solver job w Hq Habs) in Hbody.
    inversion Hbody. reflexivity.
  - intros oj on1 osn rest Hq Hnone.
    destruct (fetch_received_incomplete work_queue job w _ _ _ rest Hq Hnone) as (e & _ & He).
    rewrite (loop_body_raise_at_fetch _ _ _ _ _ He) in Hbody. inversion Hbody. reflexivity.
Qed.

(** C2, as the code has it.  The work queue is first-in first-out
    and a pass takes one item.  With two contexts waiting before the
    first poll, the receive of the first pass takes the earlier one,
    whose nonces the worker then holds, and leaves the later one on
    the queue.  When the earlier context is complete, that pass calls
    [do_pow] on it, and the later one is still waiting afterwards
    unless the result queue is the work queue itself.  When moreover
    the later context is complete, the result queue is installed and
    is another queue, and that first [do_pow] returns, the second pass
    receives the later context and calls [do_pow] on it.  Nothing is
    skipped. *)
Theorem contexts_received_in_send_order solver job w oj1 on1 osn1 c2 rest :
  q_items work_queue (mgr w) = MiningContext oj1 on1 osn1 :: c2 :: rest ->
  (exists r1 w1,
     GpuMinerProcess.fetch work_queue job w = (r1, w1) /\
     GpuMinerProcess.nonce1 (self w1) = on1 /\
     GpuMinerProcess.solver_nonce (self w1) = osn1 /\
     q_items work_queue (mgr w1) = c2 :: rest) /\
  (forall j1 n1 sn1, oj1 = Some j1 -> on1 = Some n1 -> osn1 = Some sn1 ->
   forall r w', GpuMinerProcess.loop_body solve work_queue solver job w = (r, w') ->
     trace w' = trace w ++
       [EvLog INFO (MsgReceivedJob (job_id j1) (hexlify_bytes n1) (hexlify_bytes sn1));
        EvDoPow j1 (Some n1) (Some sn1)] /\
     (GpuMinerProcess.result_queue (self w) <> Some work_queue ->
      q_items work_queue (mgr w') = c2 :: rest)) /\
  (forall j1 n1 sn1 j2 n2 sn2 rq,
   oj1 = Some j1 -> on1 = Some n1 -> osn1 = Some sn1 ->
   c2 = MiningContext (Some j2) (Some n2) (Some sn2) ->
   GpuMinerProcess.result_queue (self w) = Some rq ->
   rq <> work_queue ->
   GpuMinerProcess.pow_raises (solve solver j1 (Some n1) (Some sn1)) = None ->
   trace (snd (GpuMinerProcess.loop solve 2 work_queue solver job w)) = trace w ++
     [EvLog INFO (MsgReceivedJob (job_id j1) (hexlify_bytes n1) (hexlify_bytes sn1));
      EvDoPow j1 (Some n1) (Some sn1);
      EvLog INFO (MsgReceivedJob (job_id j2) (hexlify_bytes n2) (hexlify_bytes sn2));
      EvDoPow j2 (Some n2) (Some sn2)] /\
   q_items work_queue (mgr (snd (GpuMinerProcess.loop solve 2 work_queue solver job w)))
     = rest).
Proof.
  intros Hq. split; [|split].
  - assert (Hcases : (exists j1 n1 sn1, oj1 = Some j1 /\ on1 = Some n1 /\ osn1 = Some sn1) \/
                     (oj1 = None \/ on1 = None \/ osn1 = None)).
    { destruct oj1 as [j1|]; [|right; left; reflexivity].
      destruct on1 as [n1|]; [|right; right; left; reflexivity].
      destruct osn1 as [sn1|]; [|right; right; right; reflexivity].
      left. exists j1, n1, sn1. repeat split. }
    destruct Hcases as [(j1 & n1 & sn1 & -> & -> & ->) | Hnone].
    + eexists. eexists. split; [apply fetch_received; exact Hq|].
      simpl. repeat split. apply q_items_store_same.
    + destruct (fetch_received_incomplete work_queue job w _ _ _ _ Hq Hnone)
        as (e & _ & He).
      eexists. eexists. split; [exact He|].
      simpl. repeat split. apply q_items_store_same.
  - intros j1 n1 sn1 -> -> -> r w' Hbody.
    destruct (loop_body_received solve work_queue solver job w j1 n1 sn1 _ r w' Hq Hbody)
      as (Htr & _ & Hrest & _).
    split; assumption.
  - intros j1 n1 sn1 j2 n2 sn2 rq -> -> -> -> Hrq Hne Hpow.
    exact (proj2 (two_complete_contexts_two_passes solve work_queue solver job w rq
                    j1 n1 sn1 j2 n2 sn2 rest Hq Hrq Hne Hpow)).
Qed.

End LoopContexts.

Lemma solving_needs_full_context_witness :
  exists tr0 tr,
    trace (snd (GpuMinerProcess.loop_body scripted_solve WorkQ [] None w_two_waiting))
      = trace w_two_waiting ++ tr0 /\
    trace (snd (GpuMinerProcess.loop_body scripted_solve WorkQ [] (Some J1)
                  (snd (GpuMinerProcess.loop_body scripted_solve WorkQ [] None w_two_waiting))))
      = trace (snd (GpuMinerProcess.loop_body scripted_solve WorkQ [] None w_two_waiting)) ++ tr /\
    forallb pow_has_nonces (tr0 ++ tr) = true.
Proof.
  apply (proj1 (solving_needs_full_context scripted_solve WorkQ
                  [] w_two_waiting
                  [] (Some J1)
                  (snd (GpuMinerProcess.loop_body scripted_solve WorkQ [] None w_two_waiting))
                  (fst (GpuMinerProcess.loop_body scripted_solve WorkQ [] (Some J1)
                          (snd (GpuMinerProcess.loop_body scripted_solve WorkQ [] None
                                  w_two_waiting))))
                  (snd (GpuMinerProcess.loop_body scripted_solve WorkQ [] (Some J1)
                          (snd (GpuMinerProcess.loop_body scripted_solve WorkQ [] None
                                  w_two_waiting))))
                  (steps_snoc scripted_solve WorkQ _ _ _
                     (steps_refl scripted_solve WorkQ _)
                     (step_pass scripted_solve WorkQ [] None w_two_waiting [] (Some J1) _
                        eq_refl))
                  eq_refl)).
Defined.

Lemma contexts_received_in_send_order_witness :
  q_items WorkQ (mgr w_two_waiting) = [ctx1; ctx2] /\
  trace (snd (GpuMinerProcess.loop scripted_solve 2 WorkQ [] None w_two_waiting)) =
  trace w_two_waiting ++
  [EvLog INFO (MsgReceivedJob (job_id J1) (hexlify_bytes N1) (hexlify_bytes SN));
   EvDoPow J1 (Some N1) (Some SN);
   EvLog INFO (MsgReceivedJob (job_id J2) (hexlify_bytes N1) (hexlify_bytes SN));
   EvDoPow J2 (Some N1) (Some SN)] /\
  q_items WorkQ (mgr (snd (GpuMinerProcess.loop scripted_solve 2 WorkQ [] None w_two_waiting)))
    = [].
Proof.
  split; [reflexivity|].
  apply (proj2 (proj2 (contexts_received_in_send_order scripted_solve WorkQ
                         [] None w_two_waiting (Some J1) (Some N1) (Some SN) ctx2 []
                         eq_refl))
           J1 N1 SN J2 N1 SN ResultQ); try reflexivity.
  discriminate.
Defined.
